(** * The concurrent allocator of the managed heap

    A shallow embedding of [src/heap/concurrent-allocator.cc]: the
    per-thread allocator with its linear allocation buffer (LAB), the slow
    paths that ask the shared old space for memory, the bounded
    retry-through-collection loop and the black-allocation toggles.

    Stateful code is written in a small monad that threads the allocator
    state, stops at a fatal out-of-memory failure, and records the calls
    made to the collaborators (space, collector, marker, safepoint) as a
    trace.  Every trace entry carries the owning thread's [LocalHeap] as
    it was when the call was made. *)

From Stdlib Require Import ZArith List Bool String Lia.
Import ListNotations.
Local Open Scope Z_scope.

(** ** Addresses *)

(** [Address] is [uintptr_t]; the model takes a 64-bit target, and address
    arithmetic wraps around. *)
Definition Address := Z.
Definition kNullAddress : Address := 0.
Definition kAddressSpace : Z := 2 ^ 64.

(** [a + n] on [uintptr_t]. *)
Definition address_add (a : Address) (n : Z) : Address :=
  (a + n) mod kAddressSpace.

(** A slice [(a, n)] that is a range of real memory: it does not start at
    the null address and it ends inside the address space. *)
Definition slice_in_address_space (a : Address) (n : Z) : Prop :=
  0 < a /\ 0 <= n /\ a + n < kAddressSpace.

(** ** Enumerations and results *)

Inductive AllocationAlignment : Type :=
| kWordAligned
| kDoubleAligned
| kDoubleUnaligned.

Inductive AllocationOrigin : Type :=
| kGeneratedCode
| kRuntime
| kGC.

Inductive AllocationSpace : Type :=
| NEW_SPACE
| OLD_SPACE.

(** [AllocationResult]: an object, given by its address, or a retry request
    naming a space. [AllocationResult(HeapObject::FromAddress(a))] is
    [Success a], and [ToObjectChecked().address()] gives [a] back. *)
Inductive AllocationResult : Type :=
| Success (address : Address)
| Retry (space : AllocationSpace).

Definition IsRetry (r : AllocationResult) : bool :=
  match r with
  | Retry _ => true
  | Success _ => false
  end.

(** ** The linear allocation buffer *)

Record LocalAllocationBuffer : Type := mkLab {
  top : Address;
  limit : Address
}.

(** Bytes left in the buffer, [limit - top]. *)
Definition capacity (lab : LocalAllocationBuffer) : Z := limit lab - top lab.

(** Modelled from the spec: the empty buffer of the data model,
    [top == limit == null], meaning that no buffer is held
    ([LocalAllocationBuffer::InvalidBuffer] is not in the source file). *)
Definition InvalidBuffer : LocalAllocationBuffer :=
  {| top := kNullAddress; limit := kNullAddress |}.

(** Modelled from the spec: [LocalAllocationBuffer::IsValid] is declared in
    a header that is not in the source file; the spec calls a LAB valid when
    it is non-empty and has [top <= limit]. *)
Definition IsValid (lab : LocalAllocationBuffer) : bool :=
  negb (top lab =? kNullAddress) && (top lab <=? limit lab).

(** The invariant of the data model: a buffer is the empty one, or it is
    held and has [top <= limit] inside the address space. *)
Definition lab_well_formed (lab : LocalAllocationBuffer) : Prop :=
  (top lab = kNullAddress /\ limit lab = kNullAddress) \/
  (0 < top lab /\ top lab <= limit lab /\ limit lab < kAddressSpace).

(** Modelled from the spec: [LocalAllocationBuffer::FromResult] is not in
    the source file; it constructs the new LAB from the returned slice, which
    starts at the object's address and is [size] bytes long. A retry result
    holds no slice and gives the empty buffer. *)
Definition FromResult (result : AllocationResult) (size : Z)
  : LocalAllocationBuffer :=
  match result with
  | Retry _ => InvalidBuffer
  | Success a => {| top := a; limit := address_add a size |}
  end.

(** Modelled from the spec: [LocalAllocationBuffer::TryMerge] is not in the
    source file. When the trailing free range of [other] (the previous LAB)
    is address-contiguous with this buffer, that is when [other] ends where
    this buffer starts, the two become one buffer held by [this] and [other]
    is left empty; the result is [(merged?, this, other)]. *)
Definition TryMerge (this other : LocalAllocationBuffer)
  : bool * LocalAllocationBuffer * LocalAllocationBuffer :=
  if top this =? limit other
  then (true, {| top := top other; limit := limit this |}, InvalidBuffer)
  else (false, this, other).

(** ** The owning thread and the shared heap *)

(** The part of [LocalHeap] the allocator reads and writes: which thread
    context it is, the allocation-failed flag and the parked state. *)
Record LocalHeap : Type := mkLocalHeap {
  context_id : nat;
  allocation_failed_ : bool;
  is_parked : bool
}.

Definition with_allocation_failed (lh : LocalHeap) (flag : bool) : LocalHeap :=
  mkLocalHeap (context_id lh) flag (is_parked lh).

Definition with_parked (lh : LocalHeap) (flag : bool) : LocalHeap :=
  mkLocalHeap (context_id lh) (allocation_failed_ lh) flag.

(** The shared heap as the allocator sees it: the incremental marker's
    black-allocation flag, the marking state of every address (the pages'
    black-area bookkeeping), the filler objects written to make ranges
    iterable, and the old space. [Space] is the state of the space, of
    which this file knows nothing. *)
Record Heap (Space : Type) : Type := mkHeap {
  black_allocation : bool;
  marking_bitmap : Address -> bool;
  filler_objects : list (Address * Z);
  old_space : Space
}.

Arguments mkHeap {Space} _ _ _ _.
Arguments black_allocation {Space} _.
Arguments marking_bitmap {Space} _ _.
Arguments filler_objects {Space} _.
Arguments old_space {Space} _.

(** Modelled from the spec: the page's black-area bookkeeping
    ([Page::CreateBlackAreaBackground] and [DestroyBlackAreaBackground] are
    not in the source file). Beginning a black area over [[start, end_)]
    marks every address of the range; ending it unmarks every address of
    the range; both leave all other addresses alone. *)
Definition in_range (start end_ a : Address) : bool :=
  (start <=? a) && (a <? end_).

Definition CreateBlackArea (bitmap : Address -> bool) (start end_ : Address)
  : Address -> bool :=
  fun a => in_range start end_ a || bitmap a.

Definition DestroyBlackArea (bitmap : Address -> bool) (start end_ : Address)
  : Address -> bool :=
  fun a => negb (in_range start end_ a) && bitmap a.

(** Modelled from the spec: the marker's [MarkRangeBlack(address, size)]
    ([IncrementalMarking::MarkBlackBackground] is not in the source file)
    marks the region of [size] bytes that starts at [address]. *)
Definition MarkRangeBlack (bitmap : Address -> bool) (address : Address)
    (size : Z) : Address -> bool :=
  fun a => in_range address (address + size) a || bitmap a.

(** ** Traces *)

(** The arguments of one slice request to the shared space. *)
Record SliceRequest : Type := mkRequest {
  req_context : LocalHeap;
  req_min_size : Z;
  req_max_size : Z;
  req_alignment : AllocationAlignment;
  req_origin : AllocationOrigin
}.

Inductive Event : Type :=
| EvAllocationFailed (flag : bool)
| EvPark
| EvUnpark
| EvRequestAndWaitForCollection
| EvAllocate (object_size : Z) (alignment : AllocationAlignment)
             (origin : AllocationOrigin)
| EvAllocateResult (result : AllocationResult)
| EvSlowGetLinearAllocationArea (request : SliceRequest)
                                (granted : option (Address * Z))
| EvCreateBlackArea (start end_ : Address)
| EvDestroyBlackArea (start end_ : Address)
| EvMarkBlack (address : Address) (size : Z)
| EvCreateFillerObject (address : Address) (size : Z)
| EvInstallLab (lab : LocalAllocationBuffer)
| EvDCheck (holds : bool).

(** A trace entry: the event, and the thread's [LocalHeap] when it
    happened. *)
Record Observation : Type := mkObs {
  at_ : LocalHeap;
  ev : Event
}.

Definition Trace := list Observation.

(** ** The collaborators *)

(** What the allocator consumes and this file does not define: the shared
    space's slice provider, the collector's blocking request, the LAB size
    constants of the header, the large-object threshold and the alignment
    padding. *)
Class Collaborators : Type := {
  Space : Type;
  SlowGetLinearAllocationAreaBackground :
    Space -> LocalHeap -> Z -> Z -> AllocationAlignment -> AllocationOrigin ->
    option (Address * Z) * Space;
  RequestAndWaitForCollection : Heap Space -> Heap Space;
  kLabSize : Z;
  kMaxLabSize : Z;
  kLargeObjectThreshold : Z;
  GetFillToAlign : Address -> AllocationAlignment -> Z
}.

(** ** The allocator state and its monad *)

Record State `{Collaborators} : Type := mkState {
  local_heap_ : LocalHeap;
  lab_ : LocalAllocationBuffer;
  heap : Heap Space
}.

Inductive Outcome (A : Type) : Type :=
| Returned (a : A)
| Fatal (message : string).

Arguments Returned {A} _.
Arguments Fatal {A} _.

Record Run `{Collaborators} (A : Type) : Type := mkRun {
  outcome : Outcome A;
  after : State;
  trace : Trace
}.

Arguments mkRun {_ A} _ _ _.
Arguments outcome {_ A} _.
Arguments after {_ A} _.
Arguments trace {_ A} _.

Definition M `{Collaborators} (A : Type) : Type := State -> Run A.

Definition ret `{Collaborators} {A : Type} (a : A) : M A :=
  fun s => mkRun (Returned a) s [].

Definition bind `{Collaborators} {A B : Type} (m : M A) (f : A -> M B) : M B :=
  fun s =>
    let r := m s in
    match outcome r with
    | Returned a =>
        let r' := f a (after r) in
        mkRun (outcome r') (after r') (trace r ++ trace r')
    | Fatal msg => mkRun (Fatal msg) (after r) (trace r)
    end.

Declare Scope alloc_scope.
Delimit Scope alloc_scope with alloc.

Notation "x <- c1 ;; c2" := (bind c1 (fun x => c2))
  (at level 61, c1 at next level, right associativity) : alloc_scope.
Notation "c1 ;; c2" := (bind c1 (fun _ => c2))
  (at level 61, right associativity) : alloc_scope.

Local Open Scope alloc_scope.

Definition get `{Collaborators} : M State :=
  fun s => mkRun (Returned s) s [].

Definition emit `{Collaborators} (e : Event) : M unit :=
  fun s => mkRun (Returned tt) s [mkObs (local_heap_ s) e].

Definition set_local_heap `{Collaborators} (lh : LocalHeap) : M unit :=
  fun s => mkRun (Returned tt) (mkState _ lh (lab_ s) (heap s)) [].

Definition set_lab `{Collaborators} (lab : LocalAllocationBuffer) : M unit :=
  fun s => mkRun (Returned tt) (mkState _ (local_heap_ s) lab (heap s)) [].

Definition set_heap `{Collaborators} (h : Heap Space) : M unit :=
  fun s => mkRun (Returned tt) (mkState _ (local_heap_ s) (lab_ s) h) [].

(** [DCHECK(cond)]: the condition is recorded; a debug build stops when it
    is false, a release build does not look at it. *)
Definition DCHECK `{Collaborators} (cond : bool) : M unit :=
  emit (EvDCheck cond).

(** [heap->FatalProcessOutOfMemory(message)] does not return. *)
Definition FatalProcessOutOfMemory `{Collaborators} {A : Type}
    (message : string) : M A :=
  fun s => mkRun (Fatal message) s [].

(** ** Calls to the collaborators *)

(** [local_heap_->allocation_failed_ = flag]. *)
Definition set_allocation_failed `{Collaborators} (flag : bool) : M unit :=
  s <- get ;;
  set_local_heap (with_allocation_failed (local_heap_ s) flag) ;;
  emit (EvAllocationFailed flag).

Definition set_parked `{Collaborators} (flag : bool) : M unit :=
  s <- get ;;
  set_local_heap (with_parked (local_heap_ s) flag).

(** Modelled from the spec: the parked scope of the local heap
    ([ParkedScope] is declared in a header that is not in the source file).
    Entering the scope marks the thread parked; leaving it, on every exit
    path of the body (a normal return or a failure), unmarks it. *)
Definition ParkedScope `{Collaborators} {A : Type} (body : M A) : M A :=
  fun s =>
    let entered := (set_parked true ;; emit EvPark) s in
    let r := body (after entered) in
    let left := (set_parked false ;; emit EvUnpark) (after r) in
    mkRun (outcome r) (after left) (trace entered ++ trace r ++ trace left).

(** [heap->RequestAndWaitForCollection()]: blocks until the collector has
    run; the collector changes the shared heap only. *)
Definition heap_RequestAndWaitForCollection `{Collaborators} : M unit :=
  emit EvRequestAndWaitForCollection ;;
  s <- get ;;
  set_heap (RequestAndWaitForCollection (heap s)).

(** [space_->SlowGetLinearAllocationAreaBackground(local_heap, min, max,
    alignment, origin)]. *)
Definition space_SlowGetLinearAllocationAreaBackground `{Collaborators}
    (local_heap : LocalHeap) (min_size max_size : Z)
    (alignment : AllocationAlignment) (origin : AllocationOrigin)
  : M (option (Address * Z)) :=
  s <- get ;;
  let '(result, space') :=
    SlowGetLinearAllocationAreaBackground (old_space (heap s)) local_heap
      min_size max_size alignment origin in
  emit (EvSlowGetLinearAllocationArea
          (mkRequest local_heap min_size max_size alignment origin) result) ;;
  set_heap (mkHeap (black_allocation (heap s)) (marking_bitmap (heap s))
                   (filler_objects (heap s)) space') ;;
  ret result.

(** [Page::FromAllocationAreaAddress(start)->CreateBlackAreaBackground(start,
    end_)]. *)
Definition CreateBlackAreaBackground `{Collaborators} (start end_ : Address)
  : M unit :=
  emit (EvCreateBlackArea start end_) ;;
  s <- get ;;
  set_heap (mkHeap (black_allocation (heap s))
                   (CreateBlackArea (marking_bitmap (heap s)) start end_)
                   (filler_objects (heap s)) (old_space (heap s))).

(** [Page::FromAllocationAreaAddress(start)->DestroyBlackAreaBackground(start,
    end_)]. *)
Definition DestroyBlackAreaBackground `{Collaborators} (start end_ : Address)
  : M unit :=
  emit (EvDestroyBlackArea start end_) ;;
  s <- get ;;
  set_heap (mkHeap (black_allocation (heap s))
                   (DestroyBlackArea (marking_bitmap (heap s)) start end_)
                   (filler_objects (heap s)) (old_space (heap s))).

(** [incremental_marking()->MarkBlackBackground(object, object_size)], the
    object given by its address. *)
Definition MarkBlackBackground `{Collaborators} (object : Address)
    (object_size : Z) : M unit :=
  emit (EvMarkBlack object object_size) ;;
  s <- get ;;
  set_heap (mkHeap (black_allocation (heap s))
                   (MarkRangeBlack (marking_bitmap (heap s)) object object_size)
                   (filler_objects (heap s)) (old_space (heap s))).

(** [heap->CreateFillerObjectAtBackground(address, size, ...)]: the range
    becomes one filler object, which a heap walker can step over. *)
Definition CreateFillerObjectAtBackground `{Collaborators} (address : Address)
    (size : Z) : M unit :=
  emit (EvCreateFillerObject address size) ;;
  s <- get ;;
  set_heap (mkHeap (black_allocation (heap s)) (marking_bitmap (heap s))
                   ((address, size) :: filler_objects (heap s))
                   (old_space (heap s))).

(** ** Operations of the buffer that act on the heap *)

(** Modelled from the spec: [LocalAllocationBuffer::MakeIterable] is not in
    the source file; it pads the unused tail [[top, limit)] of a held buffer
    into a filler object. *)
Definition MakeIterable `{Collaborators} (lab : LocalAllocationBuffer)
  : M unit :=
  if IsValid lab
  then CreateFillerObjectAtBackground (top lab) (limit lab - top lab)
  else ret tt.

(** Modelled from the spec: [LocalAllocationBuffer::CloseAndMakeIterable] is
    not in the source file; it finalizes the tail as [MakeIterable] does and
    gives the buffer up. The result is the buffer afterwards. *)
Definition CloseAndMakeIterable `{Collaborators} (lab : LocalAllocationBuffer)
  : M LocalAllocationBuffer :=
  if IsValid lab
  then MakeIterable lab ;; ret InvalidBuffer
  else ret lab.

(** Modelled from the spec: the bump allocation of the fast path
    ([LocalAllocationBuffer::AllocateRawAligned] is not in the source file).
    The object is placed at [top] plus the alignment padding; when it does
    not fit below [limit] the result is a retry and nothing changes. *)
Definition AllocateRawAligned `{Collaborators} (object_size : Z)
    (alignment : AllocationAlignment) : M AllocationResult :=
  s <- get ;;
  let current_top := top (lab_ s) in
  let filler_size := GetFillToAlign current_top alignment in
  let new_top := current_top + filler_size + object_size in
  if limit (lab_ s) <? new_top
  then ret (Retry OLD_SPACE)
  else
    set_lab {| top := new_top; limit := limit (lab_ s) |} ;;
    ret (Success (current_top + filler_size)).

(** ** The allocator *)

(** [ConcurrentAllocator::FreeLinearAllocationArea]. *)
Definition FreeLinearAllocationArea `{Collaborators} : M unit :=
  s <- get ;;
  closed <- CloseAndMakeIterable (lab_ s) ;;
  set_lab closed.

(** [ConcurrentAllocator::MakeLinearAllocationAreaIterable]. *)
Definition MakeLinearAllocationAreaIterable `{Collaborators} : M unit :=
  s <- get ;;
  MakeIterable (lab_ s).

(** [ConcurrentAllocator::MarkLinearAllocationAreaBlack]. *)
Definition MarkLinearAllocationAreaBlack `{Collaborators} : M unit :=
  s <- get ;;
  let top := top (lab_ s) in
  let limit := limit (lab_ s) in
  if negb (top =? kNullAddress) && negb (top =? limit)
  then CreateBlackAreaBackground top limit
  else ret tt.

(** [ConcurrentAllocator::UnmarkLinearAllocationArea]. *)
Definition UnmarkLinearAllocationArea `{Collaborators} : M unit :=
  s <- get ;;
  let top := top (lab_ s) in
  let limit := limit (lab_ s) in
  if negb (top =? kNullAddress) && negb (top =? limit)
  then DestroyBlackAreaBackground top limit
  else ret tt.

(** [ConcurrentAllocator::EnsureLab]. [saved_lab = std::move(lab_)] keeps
    the previous buffer aside; the assignment that follows installs the
    buffer built from the slice. *)
Definition EnsureLab `{Collaborators} (origin : AllocationOrigin) : M bool :=
  s0 <- get ;;
  result <- space_SlowGetLinearAllocationAreaBackground
              (local_heap_ s0) kLabSize kMaxLabSize kWordAligned origin ;;
  match result with
  | None => ret false
  | Some (first, second) =>
      s <- get ;;
      (if black_allocation (heap s)
       then
         let top := first in
         let limit := address_add top second in
         CreateBlackAreaBackground top limit
       else ret tt) ;;
      let object := first in
      s1 <- get ;;
      let saved_lab := lab_ s1 in
      let new_lab := FromResult (Success object) second in
      set_lab new_lab ;;
      emit (EvInstallLab new_lab) ;;
      DCHECK (IsValid new_lab) ;;
      let '(merged, this, other) := TryMerge new_lab saved_lab in
      set_lab this ;;
      (if negb merged
       then CloseAndMakeIterable other ;; ret tt
       else ret tt) ;;
      ret true
  end.

(** [ConcurrentAllocator::AllocateInLabSlow]. *)
Definition AllocateInLabSlow `{Collaborators} (object_size : Z)
    (alignment : AllocationAlignment) (origin : AllocationOrigin)
  : M AllocationResult :=
  ensured <- EnsureLab origin ;;
  if negb ensured
  then ret (Retry OLD_SPACE)
  else
    allocation <- AllocateRawAligned object_size alignment ;;
    DCHECK (negb (IsRetry allocation)) ;;
    ret allocation.

(** [ConcurrentAllocator::AllocateOutsideLab]. *)
Definition AllocateOutsideLab `{Collaborators} (object_size : Z)
    (alignment : AllocationAlignment) (origin : AllocationOrigin)
  : M AllocationResult :=
  s0 <- get ;;
  result <- space_SlowGetLinearAllocationAreaBackground
              (local_heap_ s0) object_size object_size alignment origin ;;
  match result with
  | None => ret (Retry OLD_SPACE)
  | Some (first, _) =>
      let object := first in
      s <- get ;;
      (if black_allocation (heap s)
       then MarkBlackBackground object object_size
       else ret tt) ;;
      ret (Success object)
  end.

(** Modelled from the spec: the fast path in the LAB
    ([ConcurrentAllocator::AllocateInLab] is defined in a header that is not
    in the source file): a bump allocation in the current LAB, and on a miss
    the slow path that replenishes the LAB. *)
Definition AllocateInLab `{Collaborators} (object_size : Z)
    (alignment : AllocationAlignment) (origin : AllocationOrigin)
  : M AllocationResult :=
  allocation <- AllocateRawAligned object_size alignment ;;
  if IsRetry allocation
  then AllocateInLabSlow object_size alignment origin
  else ret allocation.

(** Modelled from the spec: [ConcurrentAllocator::Allocate] is defined in a
    header that is not in the source file. Requests below the large-object
    threshold go through the LAB, requests at or above it go outside the
    LAB. The call and its result are recorded in the trace. *)
Definition Allocate `{Collaborators} (object_size : Z)
    (alignment : AllocationAlignment) (origin : AllocationOrigin)
  : M AllocationResult :=
  emit (EvAllocate object_size alignment origin) ;;
  result <- (if object_size <? kLargeObjectThreshold
             then AllocateInLab object_size alignment origin
             else AllocateOutsideLab object_size alignment origin) ;;
  emit (EvAllocateResult result) ;;
  ret result.

(** The loop of [PerformCollectionAndAllocateAgain], with [n] iterations
    left: [for (int i = 0; i < 3; i++) { ... }] followed by the fatal
    failure. *)
Fixpoint collection_loop `{Collaborators} (n : nat) (object_size : Z)
    (alignment : AllocationAlignment) (origin : AllocationOrigin)
  : M Address :=
  match n with
  | O => FatalProcessOutOfMemory "ConcurrentAllocator: allocation failed"
  | S n' =>
      ParkedScope heap_RequestAndWaitForCollection ;;
      result <- Allocate object_size alignment origin ;;
      match result with
      | Success address =>
          set_allocation_failed false ;;
          ret address
      | Retry _ => collection_loop n' object_size alignment origin
      end
  end.

(** [ConcurrentAllocator::PerformCollectionAndAllocateAgain]. *)
Definition PerformCollectionAndAllocateAgain `{Collaborators}
    (object_size : Z) (alignment : AllocationAlignment)
    (origin : AllocationOrigin) : M Address :=
  set_allocation_failed true ;;
  collection_loop 3 object_size alignment origin.

(** ** Reading traces *)

Definition is_wait (e : Event) : bool :=
  match e with
  | EvRequestAndWaitForCollection => true
  | _ => false
  end.

(** How many times the collector was asked for a collection. *)
Definition count_waits (t : Trace) : nat :=
  List.length (filter (fun o => is_wait (ev o)) t).

(** The results of the [Allocate] attempts of a trace, in order. *)
Definition attempt_results (t : Trace) : list AllocationResult :=
  flat_map (fun o => match ev o with
                     | EvAllocateResult r => [r]
                     | _ => []
                     end) t.

(** The address of the first attempt that did not ask for a retry. *)
Fixpoint first_success (results : list AllocationResult) : option Address :=
  match results with
  | [] => None
  | Success a :: _ => Some a
  | Retry _ :: rest => first_success rest
  end.

(** What the code under [Allocate] may emit: calls to the space, the marker
    and the heap, the installation of a LAB, and debug checks. *)
Definition inner_event (e : Event) : bool :=
  match e with
  | EvSlowGetLinearAllocationArea _ _
  | EvCreateBlackArea _ _
  | EvMarkBlack _ _
  | EvCreateFillerObject _ _
  | EvInstallLab _
  | EvDCheck _ => true
  | _ => false
  end.

(** The events of an [Allocate] attempt: the call, what happens under it,
    and the return. *)
Definition allocation_event (e : Event) : bool :=
  match e with
  | EvAllocate _ _ _ | EvAllocateResult _ => true
  | _ => inner_event e
  end.

(** ** Concrete collaborators

    Two spaces to run the allocator on: one with ample memory, which grants
    the smallest acceptable slice at its next free address, and one that is
    exhausted and grants nothing. The collector of both finishes marking:
    it resets the marking state and ends black allocation. *)

Definition finish_marking {Space : Type} (h : Heap Space) : Heap Space :=
  mkHeap false (fun _ => false) (filler_objects h) (old_space h).

Definition ample_space : Collaborators := {|
  Space := Address;
  SlowGetLinearAllocationAreaBackground :=
    fun next _ min_size _ _ _ => (Some (next, min_size), next + min_size);
  RequestAndWaitForCollection := finish_marking;
  kLabSize := 4096;
  kMaxLabSize := 32768;
  kLargeObjectThreshold := 2048;
  GetFillToAlign := fun _ _ => 0
|}.

Definition exhausted_space : Collaborators := {|
  Space := unit;
  SlowGetLinearAllocationAreaBackground :=
    fun sp _ _ _ _ _ => (None, sp);
  RequestAndWaitForCollection := finish_marking;
  kLabSize := 4096;
  kMaxLabSize := 32768;
  kLargeObjectThreshold := 2048;
  GetFillToAlign := fun _ _ => 0
|}.

Definition thread1 : LocalHeap :=
  {| context_id := 1; allocation_failed_ := false; is_parked := false |}.

Definition unmarked : Address -> bool := fun _ => false.

(** A thread of the ample space whose LAB is [lab], with the space's next
    free address at [next]. *)
Definition ample_state (black : bool) (lab : LocalAllocationBuffer)
    (next : Address) : @State ample_space :=
  @mkState ample_space thread1 lab (mkHeap black unmarked [] next).

(** A thread of the exhausted space that holds no LAB. *)
Definition exhausted_state : @State exhausted_space :=
  @mkState exhausted_space thread1 InvalidBuffer (mkHeap true unmarked [] tt).

(** The slice requests of a trace, in order. *)
Definition slice_requests (t : Trace) : list SliceRequest :=
  flat_map (fun o => match ev o with
                     | EvSlowGetLinearAllocationArea q _ => [q]
                     | _ => []
                     end) t.

(** The parked protocol, replayed over a trace from the parked state
    [parked]: entering a parked scope parks the thread and leaving it unparks
    the thread; the collector is asked only while the thread is parked; the
    events of an [Allocate] attempt happen only while it is not. The thread's
    own parked flag, as observed at each of these events, must agree. The
    result is the parked state at the end, or [None] when the protocol is
    broken. *)
Fixpoint parked_protocol (parked : bool) (t : Trace) : option bool :=
  match t with
  | [] => Some parked
  | o :: rest =>
      match ev o with
      | EvPark =>
          if is_parked (at_ o) then parked_protocol true rest else None
      | EvUnpark =>
          if parked && negb (is_parked (at_ o))
          then parked_protocol false rest else None
      | EvRequestAndWaitForCollection =>
          if parked && is_parked (at_ o)
          then parked_protocol parked rest else None
      | e =>
          if allocation_event e
          then if negb parked && negb (is_parked (at_ o))
               then parked_protocol parked rest else None
          else parked_protocol parked rest
      end
  end.

(** A computation that runs under [Allocate]: it returns, it leaves the
    thread's [LocalHeap] as it is, and all it emits are inner events,
    observed at that [LocalHeap]. *)
Definition quiet `{Collaborators} {A : Type} (m : M A) : Prop :=
  forall s,
    (exists a, outcome (m s) = Returned a) /\
    local_heap_ (after (m s)) = local_heap_ s /\
    Forall (fun o => at_ o = local_heap_ s /\ inner_event (ev o) = true)
           (trace (m s)).

(** The state after one wait for a collection in its parked scope, and the
    trace of that wait. *)
Definition waited `{Collaborators} (s : State) : State :=
  mkState _ (with_parked (local_heap_ s) false) (lab_ s)
    (RequestAndWaitForCollection (heap s)).

(** The state once the allocation-failed flag is set. *)
Definition flagged `{Collaborators} (s : State) : State :=
  mkState _ (with_allocation_failed (local_heap_ s) true) (lab_ s) (heap s).

Definition wait_trace (lh : LocalHeap) : Trace :=
  [mkObs (with_parked lh true) EvPark;
   mkObs (with_parked lh true) EvRequestAndWaitForCollection;
   mkObs (with_parked lh false) EvUnpark].

(** ** Frames and colours *)

(** Every address of the LAB's free range [[top, limit)] has the marking
    state [colour]. *)
Definition free_range_is `{Collaborators} (colour : bool) (s : State) : Prop :=
  forall x, top (lab_ s) <= x < limit (lab_ s) ->
            marking_bitmap (heap s) x = colour.

(** What the slow paths leave alone, from [s] to [s']: the thread's
    [LocalHeap] and the black-allocation flag are the same, the filler
    objects of [s] are still there, and every address marked in [s] is still
    marked. *)
Definition allocation_frame `{Collaborators} (s s' : State) : Prop :=
  local_heap_ s' = local_heap_ s /\
  black_allocation (heap s') = black_allocation (heap s) /\
  (exists added,
     filler_objects (heap s') = added ++ filler_objects (heap s)) /\
  (forall x, marking_bitmap (heap s) x = true ->
             marking_bitmap (heap s') x = true).

(** The attempts of a trace are made with the given size, alignment and
    origin. *)
Definition attempts_ask_for (object_size : Z)
    (alignment : AllocationAlignment) (origin : AllocationOrigin)
    (t : Trace) : Prop :=
  Forall (fun o => forall size' alignment' origin',
                     ev o = EvAllocate size' alignment' origin' ->
                     size' = object_size /\ alignment' = alignment /\
                     origin' = origin) t.

(** ** The stress task *)

(** What [StressConcurrentAllocatorTask] consumes and this file does not
    define: the size of a tagged value, the allocator's [AllocateOrFail]
    (defined in a header), the local heap's [Safepoint], and the two flags
    that [Schedule] checks. *)
Class TaskCollaborators `{Collaborators} : Type := {
  kTaggedSize : Z;
  AllocateOrFail :
    Z -> AllocationAlignment -> AllocationOrigin -> M Address;
  Safepoint : M unit;
  FLAG_local_heaps : bool;
  FLAG_concurrent_allocation : bool
}.

(** Modelled from the spec: the stress task's large objects of [8 * KB] are
    8192 bytes ([KB] is a constant of a header that is not in the source
    file). *)
Definition KB : Z := 1024.

(** What the task does, step by step: an allocation with the address it
    returned, a filler object written, a safepoint, and the task posted to
    run again after its delay. *)
Inductive TaskStep : Type :=
| StepAllocateOrFail (object_size : Z) (alignment : AllocationAlignment)
                     (origin : AllocationOrigin) (address : Address)
| StepCreateFillerObject (address : Address) (size : Z)
| StepSafepoint
| StepCallDelayedOnWorkerThread.

Record TaskRun `{Collaborators} (A : Type) : Type := mkTaskRun {
  task_outcome : Outcome A;
  task_after : State;
  task_steps : list TaskStep
}.

Arguments mkTaskRun {_ A} _ _ _.
Arguments task_outcome {_ A} _.
Arguments task_after {_ A} _.
Arguments task_steps {_ A} _.

(** The task threads the allocator state, stops at a fatal failure and
    records its steps. *)
Definition T `{Collaborators} (A : Type) : Type := State -> TaskRun A.

Definition retT `{Collaborators} {A : Type} (a : A) : T A :=
  fun s => mkTaskRun (Returned a) s [].

Definition bindT `{Collaborators} {A B : Type} (m : T A) (f : A -> T B)
  : T B :=
  fun s =>
    let r := m s in
    match task_outcome r with
    | Returned a =>
        let r' := f a (task_after r) in
        mkTaskRun (task_outcome r') (task_after r')
                  (task_steps r ++ task_steps r')
    | Fatal msg => mkTaskRun (Fatal msg) (task_after r) (task_steps r)
    end.

Declare Scope task_scope.
Delimit Scope task_scope with task.

Notation "x <- c1 ;; c2" := (bindT c1 (fun x => c2))
  (at level 61, c1 at next level, right associativity) : task_scope.
Notation "c1 ;; c2" := (bindT c1 (fun _ => c2))
  (at level 61, right associativity) : task_scope.

(** A call into the allocator or the heap, made by the task. *)
Definition liftT `{Collaborators} {A : Type} (m : M A) : T A :=
  fun s => let r := m s in mkTaskRun (outcome r) (after r) [].

Definition stepT `{Collaborators} (step : TaskStep) : T unit :=
  fun s => mkTaskRun (Returned tt) s [step].

(** [CHECK(cond)]: the process ends when the condition is false. *)
Definition CHECK `{Collaborators} (cond : bool) (text : string) : T unit :=
  fun s => if cond then mkTaskRun (Returned tt) s []
           else mkTaskRun (Fatal text) s [].

(** [allocator->AllocateOrFail(object_size, alignment, origin)]. *)
Definition allocator_AllocateOrFail `{TaskCollaborators} (object_size : Z)
    (alignment : AllocationAlignment) (origin : AllocationOrigin)
  : T Address :=
  (address <- liftT (AllocateOrFail object_size alignment origin) ;;
   stepT (StepAllocateOrFail object_size alignment origin address) ;;
   retT address)%task.

(** [heap->CreateFillerObjectAtBackground(address, size,
    ClearFreedMemoryMode::kDontClearFreedMemory)]. *)
Definition heap_CreateFillerObjectAtBackground `{Collaborators}
    (address : Address) (size : Z) : T unit :=
  (liftT (CreateFillerObjectAtBackground address size) ;;
   stepT (StepCreateFillerObject address size))%task.

(** [local_heap.Safepoint()]. *)
Definition local_heap_Safepoint `{TaskCollaborators} : T unit :=
  (liftT Safepoint ;;
   stepT StepSafepoint)%task.

(** The constants of [RunInternal]. *)
Definition kNumIterations : nat := 2000.
Definition kObjectSize `{TaskCollaborators} : Z := 10 * kTaggedSize.
Definition kLargeObjectSize : Z := 8 * KB.

(** [StressConcurrentAllocatorTask::Schedule]: the flags are checked and a
    new task is posted to a worker thread, to run after the delay. *)
Definition Schedule `{TaskCollaborators} : T unit :=
  (CHECK (FLAG_local_heaps && FLAG_concurrent_allocation)
         "FLAG_local_heaps && FLAG_concurrent_allocation" ;;
   stepT StepCallDelayedOnWorkerThread)%task.

(** The loop of [RunInternal] with [count] iterations left, at index [i]:
    [for (int i = 0; i < kNumIterations; i++) { ... }]. *)
Fixpoint stress_loop `{TaskCollaborators} (count : nat) (i : Z) : T unit :=
  match count with
  | O => retT tt
  | S count' =>
      (address <- allocator_AllocateOrFail kObjectSize kWordAligned
                    kRuntime ;;
       heap_CreateFillerObjectAtBackground address kObjectSize ;;
       address <- allocator_AllocateOrFail kLargeObjectSize kWordAligned
                    kRuntime ;;
       heap_CreateFillerObjectAtBackground address kLargeObjectSize ;;
       (if Z.rem i 10 =? 0 then local_heap_Safepoint else retT tt) ;;
       stress_loop count' (i + 1))%task
  end.

(** [StressConcurrentAllocatorTask::RunInternal], from the state of the
    local heap and the allocator it has set up. What the destructor of the
    local heap does when the function returns is not in the source file and
    is not part of the run. *)
Definition RunInternal `{TaskCollaborators} : T unit :=
  (stress_loop kNumIterations 0 ;;
   Schedule)%task.

(** *** Reading the steps *)

(** The sizes the task asked for, in order. *)
Definition allocated_sizes (steps : list TaskStep) : list Z :=
  flat_map (fun step => match step with
                        | StepAllocateOrFail size _ _ _ => [size]
                        | _ => []
                        end) steps.

Definition count_safepoints (steps : list TaskStep) : nat :=
  List.length (filter (fun step => match step with
                                   | StepSafepoint => true
                                   | _ => false
                                   end) steps).

Definition count_posted (steps : list TaskStep) : nat :=
  List.length (filter (fun step => match step with
                                   | StepCallDelayedOnWorkerThread => true
                                   | _ => false
                                   end) steps).

(** Every allocation is word-aligned, has the runtime as its origin, and is
    followed at once by the filler object over the address it returned, of
    the size that was asked for. *)
Fixpoint fillers_follow (steps : list TaskStep) : bool :=
  match steps with
  | [] => true
  | StepAllocateOrFail size kWordAligned kRuntime address :: rest =>
      match rest with
      | StepCreateFillerObject address' size' :: rest' =>
          (address' =? address) && (size' =? size) && fillers_follow rest'
      | _ => false
      end
  | StepAllocateOrFail _ _ _ _ :: _ => false
  | _ :: rest => fillers_follow rest
  end.

(** How many of the iterations [i], [i + 1], ... reach a safepoint. *)
Fixpoint safepoints_due (count : nat) (i : Z) : nat :=
  match count with
  | O => O
  | S count' =>
      if Z.rem i 10 =? 0
      then S (safepoints_due count' (i + 1))
      else safepoints_due count' (i + 1)
  end.

(** A task to run: [AllocateOrFail] is the retry protocol, as the spec
    describes it, the safepoint has nothing to wait for, and both flags are
    set. *)
Definition ample_task : @TaskCollaborators ample_space := {|
  kTaggedSize := 8;
  AllocateOrFail := @PerformCollectionAndAllocateAgain ample_space;
  Safepoint := @ret ample_space unit tt;
  FLAG_local_heaps := true;
  FLAG_concurrent_allocation := true
|}.

(** The order of waits and attempts, replayed over a trace. [collected]
    tells whether a collection has been waited for since the last attempt
    began. Every attempt must find one, and uses it up. The result is the
    state at the end, or [None] when an attempt began without a collection
    waited for since the attempt before it. *)
Fixpoint collected_before_attempts (collected : bool) (t : Trace)
  : option bool :=
  match t with
  | [] => Some collected
  | o :: rest =>
      match ev o with
      | EvRequestAndWaitForCollection => collected_before_attempts true rest
      | EvAllocate _ _ _ =>
          if collected then collected_before_attempts false rest else None
      | _ => collected_before_attempts collected rest
      end
  end.


(** * Properties *)

(** ** Address ranges *)

Lemma address_add_in_space (a n : Z) :
  slice_in_address_space a n -> address_add a n = a + n.
Proof.
  unfold slice_in_address_space, address_add. intros (Ha & Hn & Hlt).
  apply Z.mod_small. lia.
Qed.

Lemma in_range_true (start end_ a : Address) :
  in_range start end_ a = true <-> start <= a < end_.
Proof.
  unfold in_range. rewrite andb_true_iff, Z.leb_le, Z.ltb_lt. tauto.
Qed.

Lemma in_range_false (start end_ a : Address) :
  in_range start end_ a = false <-> ~ (start <= a < end_).
Proof.
  rewrite <- in_range_true.
  destruct (in_range start end_ a); split; congruence.
Qed.

(** ** What one call of [EnsureLab] does

    The run of [EnsureLab] in closed form: the answer of the space decides
    the result; the black-allocation flag decides whether the slice is
    marked; whether the previous LAB ends where the slice starts decides
    between merging and closing. *)
Lemma EnsureLab_run `{Collaborators} (origin : AllocationOrigin) (s : State) :
  EnsureLab origin s =
  let lh := local_heap_ s in
  let h := heap s in
  let request := mkRequest lh kLabSize kMaxLabSize kWordAligned origin in
  match SlowGetLinearAllocationAreaBackground (old_space h) lh
          kLabSize kMaxLabSize kWordAligned origin with
  | (None, space') =>
      mkRun (Returned false)
        (mkState _ lh (lab_ s)
           (mkHeap (black_allocation h) (marking_bitmap h) (filler_objects h)
                   space'))
        [mkObs lh (EvSlowGetLinearAllocationArea request None)]
  | (Some (a, n), space') =>
      let new_lab := mkLab a (address_add a n) in
      let merged := a =? limit (lab_ s) in
      let closes := negb merged && IsValid (lab_ s) in
      mkRun (Returned true)
        (mkState _ lh
           (if merged then mkLab (top (lab_ s)) (address_add a n) else new_lab)
           (mkHeap (black_allocation h)
              (if black_allocation h
               then CreateBlackArea (marking_bitmap h) a (address_add a n)
               else marking_bitmap h)
              (if closes
               then (top (lab_ s), limit (lab_ s) - top (lab_ s))
                    :: filler_objects h
               else filler_objects h)
              space'))
        (map (mkObs lh)
           (EvSlowGetLinearAllocationArea request (Some (a, n))
            :: (if black_allocation h
                then [EvCreateBlackArea a (address_add a n)] else [])
            ++ EvInstallLab new_lab :: EvDCheck (IsValid new_lab)
            :: (if closes
                then [EvCreateFillerObject (top (lab_ s))
                        (limit (lab_ s) - top (lab_ s))]
                else [])))
  end.
Proof.
  unfold EnsureLab, space_SlowGetLinearAllocationAreaBackground, bind, get.
  cbn.
  destruct (SlowGetLinearAllocationAreaBackground _ _ _ _ _ _)
    as [[[a n]|] space']; cbn; [|reflexivity].
  destruct (black_allocation (heap s)); cbn; unfold TryMerge; cbn;
    destruct (a =? limit (lab_ s)); cbn;
    try reflexivity;
    unfold CloseAndMakeIterable, MakeIterable;
    destruct (IsValid (lab_ s)); reflexivity.
Qed.

(** C3: when the space grants a slice [(a, n)] while black allocation is
    active, [EnsureLab] marks the whole range [[a, a + n)] black, and it does
    so before it installs the new LAB: the black area over [a, a + n] is
    created right after the grant, the LAB is installed after that, and in
    the final state every address of the slice is marked. *)
Theorem EnsureLab_marks_whole_slice `{Collaborators} (s : State)
    (origin : AllocationOrigin) (a : Address) (n : Z) (space' : Space) :
  SlowGetLinearAllocationAreaBackground (old_space (heap s)) (local_heap_ s)
    kLabSize kMaxLabSize kWordAligned origin = (Some (a, n), space') ->
  black_allocation (heap s) = true ->
  slice_in_address_space a n ->
  let r := EnsureLab origin s in
  outcome r = Returned true /\
  (forall x, a <= x < a + n -> marking_bitmap (heap (after r)) x = true) /\
  exists rest,
    map ev (trace r) =
      EvSlowGetLinearAllocationArea
        (mkRequest (local_heap_ s) kLabSize kMaxLabSize kWordAligned origin)
        (Some (a, n))
      :: EvCreateBlackArea a (a + n)
      :: EvInstallLab (mkLab a (a + n))
      :: rest /\
    Forall (fun e => match e with
                     | EvInstallLab _ | EvCreateBlackArea _ _ => False
                     | _ => True
                     end) rest.
Proof.
  intros Hget Hblack Hslice r. subst r.
  rewrite EnsureLab_run. cbv zeta. rewrite Hget, Hblack.
  rewrite (address_add_in_space a n Hslice). cbn.
  split; [reflexivity|]. split.
  - intros x Hx. unfold CreateBlackArea.
    apply orb_true_iff. left. apply in_range_true. exact Hx.
  - eexists. split; [reflexivity|].
    constructor; [exact I|].
    destruct (negb (a =? limit (lab_ s)) && IsValid (lab_ s)); cbn;
      repeat constructor.
Qed.

(** The whole slice is marked on a run of the ample space. *)
Lemma EnsureLab_marks_whole_slice_witness :
  let r := @EnsureLab ample_space kRuntime
             (ample_state true InvalidBuffer 65536) in
  outcome r = Returned true /\
  (forall x, 65536 <= x < 65536 + 4096 ->
             marking_bitmap (heap (after r)) x = true) /\
  exists rest,
    map ev (trace r) =
      EvSlowGetLinearAllocationArea
        (mkRequest thread1 4096 32768 kWordAligned kRuntime)
        (Some (65536, 4096))
      :: EvCreateBlackArea 65536 (65536 + 4096)
      :: EvInstallLab (mkLab 65536 (65536 + 4096))
      :: rest /\
    Forall (fun e => match e with
                     | EvInstallLab _ | EvCreateBlackArea _ _ => False
                     | _ => True
                     end) rest.
Proof.
  apply (@EnsureLab_marks_whole_slice ample_space
           (ample_state true InvalidBuffer 65536) kRuntime 65536 4096
           (65536 + 4096)).
  - reflexivity.
  - reflexivity.
  - unfold slice_in_address_space, kAddressSpace. lia.
Defined.

(** C4: on a successful replenishment, when the previous LAB ends where the
    granted slice starts the two are merged into one LAB whose capacity is
    the sum of both, and nothing is closed; otherwise the new LAB is the
    slice alone, its capacity is the size of the slice, and the previous
    LAB, when one was held, is closed: its unused tail [[top, limit)]
    becomes a filler object. *)
Theorem EnsureLab_merge_on_replenish `{Collaborators} (s : State)
    (origin : AllocationOrigin) (a : Address) (n : Z) (space' : Space) :
  SlowGetLinearAllocationAreaBackground (old_space (heap s)) (local_heap_ s)
    kLabSize kMaxLabSize kWordAligned origin = (Some (a, n), space') ->
  slice_in_address_space a n ->
  let r := EnsureLab origin s in
  (limit (lab_ s) = a ->
     lab_ (after r) = mkLab (top (lab_ s)) (a + n) /\
     capacity (lab_ (after r)) = capacity (lab_ s) + n /\
     filler_objects (heap (after r)) = filler_objects (heap s)) /\
  (limit (lab_ s) <> a ->
     lab_ (after r) = mkLab a (a + n) /\
     capacity (lab_ (after r)) = n /\
     filler_objects (heap (after r)) =
       if IsValid (lab_ s)
       then (top (lab_ s), capacity (lab_ s)) :: filler_objects (heap s)
       else filler_objects (heap s)).
Proof.
  intros Hget Hslice r. subst r.
  rewrite EnsureLab_run. cbv zeta. rewrite Hget.
  rewrite (address_add_in_space a n Hslice).
  split; intros Hlim.
  - assert (Heq : (a =? limit (lab_ s)) = true) by (apply Z.eqb_eq; lia).
    rewrite Heq. cbn. unfold capacity. cbn.
    split; [reflexivity|]. split; [lia|reflexivity].
  - assert (Hne : (a =? limit (lab_ s)) = false) by (apply Z.eqb_neq; lia).
    rewrite Hne. cbn. unfold capacity. cbn.
    split; [reflexivity|]. split; [lia|].
    destruct (IsValid (lab_ s)); reflexivity.
Qed.

(** A contiguous slice is merged with a tail of 536 bytes, and a slice that
    is not contiguous closes a tail of 530 bytes. *)
Lemma EnsureLab_merge_on_replenish_witness :
  (let r := @EnsureLab ample_space kRuntime
              (ample_state false (mkLab 65000 65536) 65536) in
   lab_ (after r) = mkLab 65000 (65536 + 4096) /\
   capacity (lab_ (after r)) = 536 + 4096 /\
   filler_objects (heap (after r)) = []) /\
  (let r := @EnsureLab ample_space kRuntime
              (ample_state false (mkLab 65000 65530) 65536) in
   lab_ (after r) = mkLab 65536 (65536 + 4096) /\
   capacity (lab_ (after r)) = 4096 /\
   filler_objects (heap (after r)) = [(65000, 530)]).
Proof.
  assert (Hslice : slice_in_address_space 65536 4096)
    by (unfold slice_in_address_space, kAddressSpace; lia).
  split.
  - apply (@EnsureLab_merge_on_replenish ample_space
             (ample_state false (mkLab 65000 65536) 65536) kRuntime
             65536 4096 (65536 + 4096) eq_refl Hslice).
    reflexivity.
  - apply (@EnsureLab_merge_on_replenish ample_space
             (ample_state false (mkLab 65000 65530) 65536) kRuntime
             65536 4096 (65536 + 4096) eq_refl Hslice).
    cbn. lia.
Defined.

(** The slice requests of [AllocateInLabSlow] are those of [EnsureLab]. *)
Lemma AllocateInLabSlow_slice_requests `{Collaborators} (object_size : Z)
    (alignment : AllocationAlignment) (origin : AllocationOrigin)
    (s : State) :
  slice_requests (trace (AllocateInLabSlow object_size alignment origin s)) =
  [mkRequest (local_heap_ s) kLabSize kMaxLabSize kWordAligned origin].
Proof.
  unfold AllocateInLabSlow, bind. rewrite EnsureLab_run. cbv zeta.
  destruct (SlowGetLinearAllocationAreaBackground _ _ _ _ _ _)
    as [[[a n]|] space']; [|reflexivity].
  cbn [outcome after trace negb].
  unfold AllocateRawAligned, bind, get. cbn [outcome after trace lab_].
  unfold slice_requests. rewrite !flat_map_app.
  match goal with
  | |- context [flat_map ?f (map ?g (_ :: ?l ++ _ :: _ :: ?l'))] =>
      assert (Hl : flat_map f (map g l) = []) by
        (destruct (black_allocation (heap s)); reflexivity);
      assert (Hl' : flat_map f (map g l') = []) by
        (destruct (negb _ && _); reflexivity)
  end.
  rewrite map_cons, map_app, !map_cons. cbn [flat_map ev app].
  rewrite flat_map_app. cbn [flat_map ev app]. rewrite Hl, Hl'. cbn.
  match goal with
  | |- context [if ?c then _ else _] => destruct c
  end; reflexivity.
Qed.

(** C5, as amended: every allocation request that triggers LAB
    replenishment makes exactly one slice request; it asks for a size between
    [kLabSize] and [kMaxLabSize], passes the given origin, names the owning
    thread context, and is word-aligned whatever the alignment of the
    triggering request. *)
Theorem replenishment_request_is_word_aligned `{Collaborators}
    (object_size : Z) (alignment : AllocationAlignment)
    (origin : AllocationOrigin) (s : State) :
  exists q,
    slice_requests
      (trace (AllocateInLabSlow object_size alignment origin s)) = [q] /\
    req_min_size q = kLabSize /\
    req_max_size q = kMaxLabSize /\
    req_origin q = origin /\
    req_context q = local_heap_ s /\
    req_alignment q = kWordAligned.
Proof.
  eexists. split; [apply AllocateInLabSlow_slice_requests|].
  repeat split.
Qed.

(** C5, as stated, fails: a double-aligned request that replenishes the LAB
    makes a word-aligned slice request. *)
Lemma replenishment_request_alignment_counterexample :
  let r := @AllocateInLabSlow ample_space 16 kDoubleAligned kRuntime
             (ample_state false InvalidBuffer 65536) in
  map req_alignment (slice_requests (trace r)) = [kWordAligned] /\
  ~ Forall (fun q => req_alignment q = kDoubleAligned)
           (slice_requests (trace r)).
Proof.
  split; [reflexivity|].
  intros Hall. cbn in Hall. inversion Hall as [|q l Hq Hl]. discriminate Hq.
Qed.




(** C10: [EnsureLab] creates at most one black area, over the granted slice
    and only when black allocation is active; it destroys none and marks no
    object. So the marking state of every address outside the granted slice
    is what it was before the call, and when the slice is merged with the
    previous LAB's contiguous tail, the marking state of that tail is
    unchanged. *)
Theorem EnsureLab_marking_frame `{Collaborators} (s : State)
    (origin : AllocationOrigin) :
  let r := EnsureLab origin s in
  let granted :=
    fst (SlowGetLinearAllocationAreaBackground (old_space (heap s))
           (local_heap_ s) kLabSize kMaxLabSize kWordAligned origin) in
  (forall o, In o (trace r) ->
     match ev o with
     | EvDestroyBlackArea _ _ | EvMarkBlack _ _ => False
     | EvCreateBlackArea start end_ =>
         black_allocation (heap s) = true /\
         exists a n, granted = Some (a, n) /\
                     start = a /\ end_ = address_add a n
     | _ => True
     end) /\
  (forall a n x,
     granted = Some (a, n) -> slice_in_address_space a n ->
     ~ (a <= x < a + n) ->
     marking_bitmap (heap (after r)) x = marking_bitmap (heap s) x) /\
  (forall a n x,
     granted = Some (a, n) -> limit (lab_ s) = a ->
     top (lab_ s) <= x < limit (lab_ s) ->
     lab_ (after r) = mkLab (top (lab_ s)) (address_add a n) /\
     marking_bitmap (heap (after r)) x = marking_bitmap (heap s) x) /\
  (granted = None ->
     forall x, marking_bitmap (heap (after r)) x = marking_bitmap (heap s) x).
Proof.
  intros r granted. subst r granted.
  rewrite EnsureLab_run. cbv zeta.
  destruct (SlowGetLinearAllocationAreaBackground _ _ _ _ _ _)
    as [[[a n]|] space'] eqn:Hget; cbn [fst].
  - split; [|split; [|split]].
    + cbn [trace]. intros o Hin.
      apply in_map_iff in Hin. destruct Hin as (e & <- & Hin). cbn [ev].
      destruct Hin as [<-|Hin]; [exact I|].
      apply in_app_or in Hin. destruct Hin as [Hin|Hin].
      * destruct (black_allocation (heap s)); cbn in Hin;
          [destruct Hin as [<-|[]]|destruct Hin].
        split; [reflexivity|]. exists a, n. repeat split.
      * destruct Hin as [<-|[<-|Hin]]; [exact I|exact I|].
        destruct (negb _ && _); cbn in Hin;
          [destruct Hin as [<-|[]]; exact I|destruct Hin].
    + intros a0 n0 x Heq Hslice Hx. injection Heq as <- <-.
      cbn [after heap marking_bitmap].
      destruct (black_allocation (heap s)); [|reflexivity].
      rewrite (address_add_in_space a n Hslice).
      unfold CreateBlackArea.
      apply in_range_false in Hx. rewrite Hx. reflexivity.
    + intros a0 n0 x Heq Hlim Hx. injection Heq as <- <-.
      cbn [after heap marking_bitmap lab_].
      assert (Hm : (a =? limit (lab_ s)) = true) by (apply Z.eqb_eq; lia).
      rewrite Hm. split; [reflexivity|].
      destruct (black_allocation (heap s)); [|reflexivity].
      unfold CreateBlackArea.
      assert (Hout : in_range a (address_add a n) x = false)
        by (apply in_range_false; lia).
      rewrite Hout. reflexivity.
    + discriminate.
  - split; [|split; [|split]].
    + cbn [trace]. intros o [<-|[]]. exact I.
    + intros a n x Heq. discriminate Heq.
    + intros a n x Heq. discriminate Heq.
    + intros _ x. reflexivity.
Qed.

(** On a merge in the ample space, with black allocation active, an address
    of the previous tail stays unmarked while the slice is marked. *)
Lemma EnsureLab_marking_frame_witness :
  let r := @EnsureLab ample_space kRuntime
             (ample_state true (mkLab 65000 65536) 65536) in
  (lab_ (after r) = mkLab 65000 (address_add 65536 4096) /\
   marking_bitmap (heap (after r)) 65100 = unmarked 65100) /\
  marking_bitmap (heap (after r)) 70000 = unmarked 70000.
Proof.
  pose proof (@EnsureLab_marking_frame ample_space
                (ample_state true (mkLab 65000 65536) 65536) kRuntime)
    as (_ & Hframe & Hmerge & _).
  split.
  - apply (Hmerge 65536 4096 65100); [reflexivity|reflexivity|cbn; lia].
  - apply (Hframe 65536 4096 70000); [reflexivity| |lia].
    unfold slice_in_address_space, kAddressSpace. lia.
Defined.

(** ** Allocation outside the LAB *)

(** The run of [AllocateOutsideLab] in closed form. *)
Lemma AllocateOutsideLab_run `{Collaborators} (object_size : Z)
    (alignment : AllocationAlignment) (origin : AllocationOrigin)
    (s : State) :
  AllocateOutsideLab object_size alignment origin s =
  let lh := local_heap_ s in
  let h := heap s in
  let request := mkRequest lh object_size object_size alignment origin in
  match SlowGetLinearAllocationAreaBackground (old_space h) lh
          object_size object_size alignment origin with
  | (None, space') =>
      mkRun (Returned (Retry OLD_SPACE))
        (mkState _ lh (lab_ s)
           (mkHeap (black_allocation h) (marking_bitmap h) (filler_objects h)
                   space'))
        [mkObs lh (EvSlowGetLinearAllocationArea request None)]
  | (Some (a, n), space') =>
      mkRun (Returned (Success a))
        (mkState _ lh (lab_ s)
           (mkHeap (black_allocation h)
              (if black_allocation h
               then MarkRangeBlack (marking_bitmap h) a object_size
               else marking_bitmap h)
              (filler_objects h) space'))
        (map (mkObs lh)
           (EvSlowGetLinearAllocationArea request (Some (a, n))
            :: (if black_allocation h
                then [EvMarkBlack a object_size] else [])))
  end.
Proof.
  unfold AllocateOutsideLab, space_SlowGetLinearAllocationAreaBackground,
    bind, get.
  cbn.
  destruct (SlowGetLinearAllocationAreaBackground _ _ _ _ _ _)
    as [[[a n]|] space']; cbn; [|reflexivity].
  destruct (black_allocation (heap s)); reflexivity.
Qed.

(** C7: [AllocateOutsideLab(size, alignment, origin)] makes one slice
    request, with [min = max = size]. When the request fails the result is
    [Retry]. When it succeeds at address [a] the result is [a], and if black
    allocation is active exactly the region [[a, a + size)] is marked black
    on the way: the marker is called once, for [a] and [size], and the
    marking state of every other address is unchanged. *)
Theorem AllocateOutsideLab_exact `{Collaborators} (object_size : Z)
    (alignment : AllocationAlignment) (origin : AllocationOrigin)
    (s : State) :
  let r := AllocateOutsideLab object_size alignment origin s in
  let granted :=
    fst (SlowGetLinearAllocationAreaBackground (old_space (heap s))
           (local_heap_ s) object_size object_size alignment origin) in
  slice_requests (trace r) =
    [mkRequest (local_heap_ s) object_size object_size alignment origin] /\
  (granted = None ->
     outcome r = Returned (Retry OLD_SPACE) /\
     forall x, marking_bitmap (heap (after r)) x = marking_bitmap (heap s) x) /\
  (forall a n, granted = Some (a, n) ->
     outcome r = Returned (Success a) /\
     (black_allocation (heap s) = true ->
        map ev (trace r) =
          [EvSlowGetLinearAllocationArea
             (mkRequest (local_heap_ s) object_size object_size alignment
                        origin) (Some (a, n));
           EvMarkBlack a object_size] /\
        (forall x, a <= x < a + object_size ->
                   marking_bitmap (heap (after r)) x = true) /\
        (forall x, ~ (a <= x < a + object_size) ->
                   marking_bitmap (heap (after r)) x
                   = marking_bitmap (heap s) x)) /\
     (black_allocation (heap s) = false ->
        forall x, marking_bitmap (heap (after r)) x
                  = marking_bitmap (heap s) x)).
Proof.
  intros r granted. subst r granted.
  rewrite AllocateOutsideLab_run. cbv zeta.
  destruct (SlowGetLinearAllocationAreaBackground _ _ _ _ _ _)
    as [[[a n]|] space']; cbn [fst].
  - split; [|split].
    + destruct (black_allocation (heap s)); reflexivity.
    + discriminate.
    + intros a0 n0 Heq. injection Heq as <- <-.
      split; [reflexivity|]. split; intros Hblack; rewrite Hblack.
      * split; [reflexivity|]. cbn. unfold MarkRangeBlack. split; intros x Hx.
        -- apply in_range_true in Hx. rewrite Hx. reflexivity.
        -- apply in_range_false in Hx. rewrite Hx. reflexivity.
      * reflexivity.
  - split; [reflexivity|]. split.
    + intros _. split; reflexivity.
    + intros a n Heq. discriminate Heq.
Qed.

(** A large object of 8192 bytes in the ample space, with black allocation
    active, and the same request against the exhausted space. *)
Lemma AllocateOutsideLab_exact_witness :
  (let r := @AllocateOutsideLab ample_space 8192 kWordAligned kRuntime
              (ample_state true InvalidBuffer 65536) in
   outcome r = Returned (Success 65536) /\
   marking_bitmap (heap (after r)) 65536 = true /\
   marking_bitmap (heap (after r)) (65536 + 8192) = unmarked (65536 + 8192)) /\
  (let r := @AllocateOutsideLab exhausted_space 8192 kWordAligned kRuntime
              exhausted_state in
   outcome r = Returned (Retry OLD_SPACE)).
Proof.
  split.
  - pose proof (@AllocateOutsideLab_exact ample_space 8192 kWordAligned
                  kRuntime (ample_state true InvalidBuffer 65536))
      as (_ & _ & Hsome).
    destruct (Hsome 65536 8192 eq_refl) as (Hout & Hblack & _).
    destruct (Hblack eq_refl) as (_ & Hin & Hframe).
    split; [exact Hout|]. split.
    + apply Hin. lia.
    + apply Hframe. lia.
  - pose proof (@AllocateOutsideLab_exact exhausted_space 8192 kWordAligned
                  kRuntime exhausted_state) as (_ & Hnone & _).
    apply (Hnone eq_refl).
Defined.

(** ** Black-allocation toggles on the LAB *)

(** C8: [MarkLinearAllocationAreaBlack] and [UnmarkLinearAllocationArea]
    do nothing when the LAB is empty ([top] is null) or [top = limit]. For
    every LAB, marking and then unmarking with nothing in between leaves the
    LAB, the thread and the rest of the heap as they were, and when the
    region [[top, limit)] was unmarked before, the marking state of every
    address is restored. *)
Theorem mark_unmark_linear_allocation_area `{Collaborators} (s : State) :
  (top (lab_ s) = kNullAddress \/ top (lab_ s) = limit (lab_ s) ->
     MarkLinearAllocationAreaBlack s = mkRun (Returned tt) s [] /\
     UnmarkLinearAllocationArea s = mkRun (Returned tt) s []) /\
  (let r := (MarkLinearAllocationAreaBlack ;; UnmarkLinearAllocationArea) s in
   outcome r = Returned tt /\
   lab_ (after r) = lab_ s /\
   local_heap_ (after r) = local_heap_ s /\
   black_allocation (heap (after r)) = black_allocation (heap s) /\
   filler_objects (heap (after r)) = filler_objects (heap s) /\
   old_space (heap (after r)) = old_space (heap s) /\
   ((forall x, top (lab_ s) <= x < limit (lab_ s) ->
               marking_bitmap (heap s) x = false) ->
    forall x, marking_bitmap (heap (after r)) x = marking_bitmap (heap s) x)).
Proof.
  split.
  - intros Hempty.
    unfold MarkLinearAllocationAreaBlack, UnmarkLinearAllocationArea,
      bind, get. cbn.
    assert (Hc : negb (top (lab_ s) =? kNullAddress)
                 && negb (top (lab_ s) =? limit (lab_ s)) = false).
    { apply andb_false_iff.
      destruct Hempty as [He|He]; [left|right];
        apply negb_false_iff, Z.eqb_eq; exact He. }
    rewrite Hc. cbn. destruct s. split; reflexivity.
  - unfold MarkLinearAllocationAreaBlack, UnmarkLinearAllocationArea,
      bind, get. cbn.
    destruct (negb (top (lab_ s) =? kNullAddress)
              && negb (top (lab_ s) =? limit (lab_ s))) eqn:Hc; cbn.
    + rewrite Hc. cbn. repeat (split; [reflexivity|]).
      intros Hclear x. unfold DestroyBlackArea, CreateBlackArea.
      destruct (in_range (top (lab_ s)) (limit (lab_ s)) x) eqn:Hx; cbn.
      * symmetry. apply Hclear. apply in_range_true. exact Hx.
      * reflexivity.
    + rewrite Hc. cbn. repeat (split; [reflexivity|]).
      intros _ x. reflexivity.
Qed.

(** Marking and unmarking an unmarked LAB of 4096 bytes restores the marking
    state, and both toggles do nothing on the empty LAB. *)
Lemma mark_unmark_linear_allocation_area_witness :
  (let s := ample_state true InvalidBuffer 65536 in
   MarkLinearAllocationAreaBlack s = mkRun (Returned tt) s [] /\
   UnmarkLinearAllocationArea s = mkRun (Returned tt) s []) /\
  (let s := ample_state true (mkLab 65536 69632) 69632 in
   let r := (MarkLinearAllocationAreaBlack ;; UnmarkLinearAllocationArea) s in
   forall x, marking_bitmap (heap (after r)) x = marking_bitmap (heap s) x).
Proof.
  split.
  - apply (@mark_unmark_linear_allocation_area ample_space
             (ample_state true InvalidBuffer 65536)).
    left. reflexivity.
  - apply (@mark_unmark_linear_allocation_area ample_space
             (ample_state true (mkLab 65536 69632) 69632)).
    intros x _. reflexivity.
Defined.

(** ** Computations under [Allocate] *)

Section Quiet.
Context `{Collaborators}.

Lemma quiet_ret {A : Type} (a : A) : quiet (ret a).
Proof.
  intros s. cbn. split; [eexists; reflexivity|].
  split; [reflexivity|constructor].
Qed.

Lemma quiet_get : quiet get.
Proof.
  intros s. cbn. split; [eexists; reflexivity|].
  split; [reflexivity|constructor].
Qed.

Lemma quiet_set_lab (lab : LocalAllocationBuffer) : quiet (set_lab lab).
Proof.
  intros s. cbn. split; [eexists; reflexivity|].
  split; [reflexivity|constructor].
Qed.

Lemma quiet_set_heap (h : Heap Space) : quiet (set_heap h).
Proof.
  intros s. cbn. split; [eexists; reflexivity|].
  split; [reflexivity|constructor].
Qed.

Lemma quiet_emit (e : Event) : inner_event e = true -> quiet (emit e).
Proof.
  intros He s. cbn. split; [eexists; reflexivity|]. split; [reflexivity|].
  constructor; [|constructor]. cbn. split; [reflexivity|exact He].
Qed.

Lemma quiet_bind {A B : Type} (m : M A) (f : A -> M B) :
  quiet m -> (forall a, quiet (f a)) -> quiet (bind m f).
Proof.
  intros Hm Hf s. unfold bind.
  destruct (Hm s) as ((a & Ha) & Hlh & Htr). rewrite Ha.
  destruct (Hf a (after (m s))) as ((b & Hb) & Hlh' & Htr'). cbn.
  split; [exists b; exact Hb|]. split; [congruence|].
  apply Forall_app. split; [exact Htr|].
  rewrite Hlh in Htr'. exact Htr'.
Qed.

Ltac quiet_step :=
  first
    [ apply quiet_ret
    | apply quiet_get
    | apply quiet_set_lab
    | apply quiet_set_heap
    | apply quiet_emit; reflexivity
    | apply quiet_bind; [|intro]
    | match goal with
      | |- quiet (if ?c then _ else _) => destruct c
      | |- quiet (match ?x with _ => _ end) => destruct x
      end ].

Lemma quiet_SlowGet (lh : LocalHeap) (min_size max_size : Z)
    (alignment : AllocationAlignment) (origin : AllocationOrigin) :
  quiet (space_SlowGetLinearAllocationAreaBackground lh min_size max_size
           alignment origin).
Proof.
  unfold space_SlowGetLinearAllocationAreaBackground. repeat quiet_step.
Qed.

Lemma quiet_CreateBlackAreaBackground (start end_ : Address) :
  quiet (CreateBlackAreaBackground start end_).
Proof. unfold CreateBlackAreaBackground. repeat quiet_step. Qed.

Lemma quiet_MarkBlackBackground (object : Address) (size : Z) :
  quiet (MarkBlackBackground object size).
Proof. unfold MarkBlackBackground. repeat quiet_step. Qed.

Lemma quiet_CloseAndMakeIterable (lab : LocalAllocationBuffer) :
  quiet (CloseAndMakeIterable lab).
Proof.
  unfold CloseAndMakeIterable, MakeIterable, CreateFillerObjectAtBackground.
  repeat quiet_step.
Qed.

Lemma quiet_AllocateRawAligned (size : Z) (alignment : AllocationAlignment) :
  quiet (AllocateRawAligned size alignment).
Proof. unfold AllocateRawAligned. repeat quiet_step. Qed.

Lemma quiet_EnsureLab (origin : AllocationOrigin) : quiet (EnsureLab origin).
Proof.
  unfold EnsureLab, DCHECK.
  repeat first [ apply quiet_SlowGet
               | apply quiet_CreateBlackAreaBackground
               | apply quiet_CloseAndMakeIterable
               | quiet_step ].
Qed.

Lemma quiet_AllocateInLabSlow (size : Z) (alignment : AllocationAlignment)
    (origin : AllocationOrigin) :
  quiet (AllocateInLabSlow size alignment origin).
Proof.
  unfold AllocateInLabSlow, DCHECK.
  repeat first [ apply quiet_EnsureLab
               | apply quiet_AllocateRawAligned
               | quiet_step ].
Qed.

Lemma quiet_AllocateOutsideLab (size : Z) (alignment : AllocationAlignment)
    (origin : AllocationOrigin) :
  quiet (AllocateOutsideLab size alignment origin).
Proof.
  unfold AllocateOutsideLab.
  repeat first [ apply quiet_SlowGet
               | apply quiet_MarkBlackBackground
               | quiet_step ].
Qed.

Lemma quiet_AllocateInLab (size : Z) (alignment : AllocationAlignment)
    (origin : AllocationOrigin) :
  quiet (AllocateInLab size alignment origin).
Proof.
  unfold AllocateInLab.
  repeat first [ apply quiet_AllocateInLabSlow
               | apply quiet_AllocateRawAligned
               | quiet_step ].
Qed.

(** An [Allocate] attempt returns a result, leaves the thread's
    [LocalHeap] as it is, and its trace is the call, inner events, and the
    result. *)
Lemma Allocate_run (object_size : Z) (alignment : AllocationAlignment)
    (origin : AllocationOrigin) (s : State) :
  exists result inner s',
    Allocate object_size alignment origin s =
      mkRun (Returned result) s'
        (mkObs (local_heap_ s) (EvAllocate object_size alignment origin)
         :: inner ++ [mkObs (local_heap_ s) (EvAllocateResult result)]) /\
    local_heap_ s' = local_heap_ s /\
    Forall (fun o => at_ o = local_heap_ s /\ inner_event (ev o) = true)
           inner.
Proof.
  unfold Allocate, bind. cbn.
  assert (Hq : quiet (if object_size <? kLargeObjectThreshold
                      then AllocateInLab object_size alignment origin
                      else AllocateOutsideLab object_size alignment origin)).
  { destruct (object_size <? kLargeObjectThreshold);
      [apply quiet_AllocateInLab|apply quiet_AllocateOutsideLab]. }
  destruct (Hq s) as ((result & Hres) & Hlh & Htr).
  rewrite Hres. cbn. rewrite Hlh.
  exists result. eexists. eexists. split; [reflexivity|].
  split; [exact Hlh|exact Htr].
Qed.
End Quiet.

(** ** Traces of the retry loop *)

Lemma attempt_results_app (t1 t2 : Trace) :
  attempt_results (t1 ++ t2) = attempt_results t1 ++ attempt_results t2.
Proof. apply flat_map_app. Qed.

Lemma count_waits_app (t1 t2 : Trace) :
  count_waits (t1 ++ t2) = (count_waits t1 + count_waits t2)%nat.
Proof. unfold count_waits. rewrite filter_app. apply length_app. Qed.

Lemma inner_trace (lh : LocalHeap) (inner : Trace) :
  Forall (fun o => at_ o = lh /\ inner_event (ev o) = true) inner ->
  attempt_results inner = [] /\ count_waits inner = 0%nat.
Proof.
  induction 1 as [|o t (_ & Ho) _ (IHa & IHc)]; [split; reflexivity|].
  unfold count_waits in *. cbn.
  destruct (ev o); try discriminate Ho; cbn; split; assumption.
Qed.

(** Writes of the allocation-failed flag are neither waits nor attempts. *)
Lemma attempt_results_flag (lh : LocalHeap) (flag : bool) (t : Trace) :
  attempt_results (mkObs lh (EvAllocationFailed flag) :: t)
  = attempt_results t.
Proof. reflexivity. Qed.

Lemma count_waits_flag (lh : LocalHeap) (flag : bool) (t : Trace) :
  count_waits (mkObs lh (EvAllocationFailed flag) :: t) = count_waits t.
Proof. reflexivity. Qed.

Lemma parked_protocol_flag (parked : bool) (lh : LocalHeap) (flag : bool)
    (t : Trace) :
  parked_protocol parked (mkObs lh (EvAllocationFailed flag) :: t)
  = parked_protocol parked t.
Proof. reflexivity. Qed.

Lemma parked_protocol_app (parked : bool) (t1 t2 : Trace) :
  parked_protocol parked (t1 ++ t2) =
  match parked_protocol parked t1 with
  | Some parked' => parked_protocol parked' t2
  | None => None
  end.
Proof.
  revert parked. induction t1 as [|o t1 IH]; intros parked; [reflexivity|].
  cbn. destruct (ev o); cbn;
    repeat match goal with
           | |- context [if ?c then _ else _] => destruct c
           end; try reflexivity; apply IH.
Qed.

Lemma parked_protocol_inner (lh : LocalHeap) (inner : Trace) :
  is_parked lh = false ->
  Forall (fun o => at_ o = lh /\ inner_event (ev o) = true) inner ->
  parked_protocol false inner = Some false.
Proof.
  intros Hlh. induction 1 as [|o t (Hat & Ho) _ IH]; [reflexivity|].
  cbn. rewrite Hat, Hlh.
  destruct (ev o); try discriminate Ho; cbn; exact IH.
Qed.

(** ** The retry loop, one iteration at a time *)

Section Loop.
Context `{Collaborators}.
Variables (object_size : Z) (alignment : AllocationAlignment)
          (origin : AllocationOrigin).

Lemma ParkedScope_wait_run (s : State) :
  ParkedScope heap_RequestAndWaitForCollection s =
  mkRun (Returned tt) (waited s) (wait_trace (local_heap_ s)).
Proof. reflexivity. Qed.

Lemma collection_loop_step (n : nat) (s : State) :
  collection_loop (S n) object_size alignment origin s =
  let r1 := Allocate object_size alignment origin (waited s) in
  match outcome r1 with
  | Returned (Success a) =>
      mkRun (Returned a)
        (mkState _ (with_allocation_failed (local_heap_ (after r1)) false)
           (lab_ (after r1)) (heap (after r1)))
        (wait_trace (local_heap_ s) ++ trace r1 ++
         [mkObs (with_allocation_failed (local_heap_ (after r1)) false)
            (EvAllocationFailed false)])
  | Returned (Retry _) =>
      let r2 := collection_loop n object_size alignment origin (after r1) in
      mkRun (outcome r2) (after r2)
        (wait_trace (local_heap_ s) ++ trace r1 ++ trace r2)
  | Fatal msg =>
      mkRun (Fatal msg) (after r1) (wait_trace (local_heap_ s) ++ trace r1)
  end.
Proof.
  cbn [collection_loop]. unfold bind.
  rewrite ParkedScope_wait_run. cbn [outcome after trace]. cbv zeta.
  generalize (Allocate object_size alignment origin (waited s)).
  intros [[[a|sp]|msg] s1 t1]; reflexivity.
Qed.

(** One iteration of the loop: the wait in its parked scope, the attempt,
    and then the return or the remaining iterations. *)
Lemma collection_loop_iteration (n : nat) (s : State) :
  let lh := with_parked (local_heap_ s) false in
  exists result inner s1,
    local_heap_ s1 = lh /\
    Forall (fun o => at_ o = lh /\ inner_event (ev o) = true) inner /\
    let t1 := wait_trace (local_heap_ s) ++
              mkObs lh (EvAllocate object_size alignment origin)
              :: inner ++ [mkObs lh (EvAllocateResult result)] in
    collection_loop (S n) object_size alignment origin s =
    match result with
    | Success a =>
        mkRun (Returned a)
          (mkState _ (with_allocation_failed lh false) (lab_ s1) (heap s1))
          (t1 ++ [mkObs (with_allocation_failed lh false)
                    (EvAllocationFailed false)])
    | Retry _ =>
        let r2 := collection_loop n object_size alignment origin s1 in
        mkRun (outcome r2) (after r2) (t1 ++ trace r2)
    end.
Proof.
  intros lh.
  destruct (Allocate_run object_size alignment origin (waited s))
    as (result & inner & s1 & Hrun & Hlh & Hinner).
  exists result, inner, s1. split; [exact Hlh|]. split; [exact Hinner|].
  cbv zeta. rewrite collection_loop_step. cbv zeta. rewrite Hrun.
  cbn [outcome after trace]. rewrite Hlh.
  destruct result; rewrite <- !app_assoc; reflexivity.
Qed.

Lemma iteration_trace (lh0 lh : LocalHeap) (inner : Trace)
    (result : AllocationResult) :
  Forall (fun o => at_ o = lh /\ inner_event (ev o) = true) inner ->
  let t1 := wait_trace lh0 ++
            mkObs lh (EvAllocate object_size alignment origin)
            :: inner ++ [mkObs lh (EvAllocateResult result)] in
  attempt_results t1 = [result] /\ count_waits t1 = 1%nat.
Proof.
  intros Hinner t1. subst t1.
  destruct (inner_trace lh inner Hinner) as (Ha & Hc).
  rewrite attempt_results_app, count_waits_app.
  change (mkObs lh (EvAllocate object_size alignment origin)
          :: inner ++ [mkObs lh (EvAllocateResult result)])
    with ([mkObs lh (EvAllocate object_size alignment origin)]
          ++ inner ++ [mkObs lh (EvAllocateResult result)]).
  rewrite !attempt_results_app, !count_waits_app, Ha, Hc.
  split; reflexivity.
Qed.

(** When every attempt asks for a retry, [n] iterations wait [n] times
    and end in the fatal failure. *)
Lemma collection_loop_all_retry (n : nat) (s : State) :
  let r := collection_loop n object_size alignment origin s in
  Forall (fun result => IsRetry result = true) (attempt_results (trace r)) ->
  count_waits (trace r) = n /\
  List.length (attempt_results (trace r)) = n /\
  outcome r = Fatal "ConcurrentAllocator: allocation failed".
Proof.
  revert s. induction n as [|n IH]; intros s r Hall; subst r.
  - cbn. repeat split.
  - destruct (collection_loop_iteration n s)
      as (result & inner & s1 & Hlh & Hinner & Hrun).
    cbv zeta in Hrun.
    destruct (iteration_trace (local_heap_ s) _ inner result Hinner)
      as (Ha & Hc).
    rewrite Hrun in *. destruct result as [a|sp].
    + cbn [trace] in Hall. rewrite attempt_results_app, Ha in Hall.
      inversion Hall as [|x l Hx Hl]. discriminate Hx.
    + cbv zeta in Hall |- *. cbn [trace] in Hall. cbn [trace outcome].
      rewrite attempt_results_app, Ha in Hall.
      inversion Hall as [|x l Hx Hl]; subst.
      destruct (IH s1 Hl) as (IHc & IHa & IHo).
      rewrite count_waits_app, attempt_results_app, Hc, Ha, length_app.
      rewrite IHc, IHa. cbn. repeat split. exact IHo.
Qed.

(** Whatever the attempts return, [n] iterations wait at most [n]
    times. *)
Lemma collection_loop_bounded (n : nat) (s : State) :
  let r := collection_loop n object_size alignment origin s in
  (count_waits (trace r) <= n)%nat /\
  (List.length (attempt_results (trace r)) <= n)%nat.
Proof.
  revert s. induction n as [|n IH]; intros s r; subst r.
  - cbn. split; constructor.
  - destruct (collection_loop_iteration n s)
      as (result & inner & s1 & Hlh & Hinner & Hrun).
    cbv zeta in Hrun.
    destruct (iteration_trace (local_heap_ s) _ inner result Hinner)
      as (Ha & Hc).
    rewrite Hrun. destruct result as [a|sp].
    + cbn [trace]. rewrite count_waits_app, attempt_results_app, Hc, Ha.
      cbn. split; lia.
    + cbv zeta. cbn [trace].
      rewrite count_waits_app, attempt_results_app, Hc, Ha, length_app.
      destruct (IH s1) as (IHc & IHa). cbn. split; lia.
Qed.

(** While the loop runs the allocation-failed flag stays set: every event
    but the clearing of the flag is observed with the flag set. *)
Lemma collection_loop_flag_seen (n : nat) (s : State) :
  allocation_failed_ (local_heap_ s) = true ->
  Forall (fun o => ev o = EvAllocationFailed false \/
                   allocation_failed_ (at_ o) = true)
         (trace (collection_loop n object_size alignment origin s)).
Proof.
  revert s. induction n as [|n IH]; intros s Hflag.
  - constructor.
  - destruct (collection_loop_iteration n s)
      as (result & inner & s1 & Hlh & Hinner & Hrun).
    cbv zeta in Hrun. rewrite Hrun.
    assert (Ht1 :
      Forall (fun o => ev o = EvAllocationFailed false \/
                       allocation_failed_ (at_ o) = true)
        (wait_trace (local_heap_ s) ++
         mkObs (with_parked (local_heap_ s) false)
           (EvAllocate object_size alignment origin)
         :: inner ++
         [mkObs (with_parked (local_heap_ s) false)
            (EvAllocateResult result)])).
    { apply Forall_app. split.
      - unfold wait_trace.
        repeat (apply Forall_cons; [right; exact Hflag|]).
        apply Forall_nil.
      - apply Forall_cons; [right; exact Hflag|].
        apply Forall_app. split.
        + eapply Forall_impl; [|exact Hinner].
          intros o (Hat & _). right. rewrite Hat. exact Hflag.
        + apply Forall_cons; [right; exact Hflag|apply Forall_nil]. }
    destruct result as [a|sp]; cbv zeta; cbn [trace].
    + apply Forall_app. split; [exact Ht1|].
      apply Forall_cons; [left; reflexivity|apply Forall_nil].
    + apply Forall_app. split; [exact Ht1|].
      apply IH. rewrite Hlh. exact Hflag.
Qed.

(** The first attempt that succeeds ends the loop: the flag is cleared
    right after it and its address is returned. *)
Lemma collection_loop_success (n : nat) (s : State) (a : Address) :
  let r := collection_loop n object_size alignment origin s in
  first_success (attempt_results (trace r)) = Some a ->
  outcome r = Returned a /\
  allocation_failed_ (local_heap_ (after r)) = false /\
  exists before at_result at_clear,
    trace r = before ++ [mkObs at_result (EvAllocateResult (Success a));
                         mkObs at_clear (EvAllocationFailed false)] /\
    first_success (attempt_results before) = None /\
    allocation_failed_ at_clear = false.
Proof.
  revert s. induction n as [|n IH]; intros s r Hfirst; subst r.
  - discriminate Hfirst.
  - destruct (collection_loop_iteration n s)
      as (result & inner & s1 & Hlh & Hinner & Hrun).
    cbv zeta in Hrun.
    destruct (iteration_trace (local_heap_ s) _ inner result Hinner)
      as (Ha & Hc).
    destruct (inner_trace _ inner Hinner) as (Hia & _).
    rewrite Hrun in *. destruct result as [a'|sp].
    + cbn [trace] in Hfirst. rewrite attempt_results_app, Ha in Hfirst.
      injection Hfirst as ->.
      split; [reflexivity|]. split; [reflexivity|].
      exists (wait_trace (local_heap_ s) ++
              mkObs (with_parked (local_heap_ s) false)
                (EvAllocate object_size alignment origin) :: inner).
      do 2 eexists. split; [|split].
      * cbn [trace]. rewrite <- !app_assoc. cbn [app].
        rewrite <- app_assoc. reflexivity.
      * change (mkObs (with_parked (local_heap_ s) false)
                  (EvAllocate object_size alignment origin) :: inner)
          with ([mkObs (with_parked (local_heap_ s) false)
                   (EvAllocate object_size alignment origin)] ++ inner).
        rewrite !attempt_results_app, Hia. reflexivity.
      * reflexivity.
    + cbv zeta in Hfirst |- *. cbn [trace] in Hfirst.
      cbn [trace outcome after].
      rewrite attempt_results_app, Ha in Hfirst.
      cbn [app first_success] in Hfirst.
      destruct (IH s1 Hfirst)
        as (Hout & Hflag & before & lh1 & lh2 & Htr & Hnone & Hclear).
      split; [exact Hout|]. split; [exact Hflag|].
      exists ((wait_trace (local_heap_ s) ++
               mkObs (with_parked (local_heap_ s) false)
                 (EvAllocate object_size alignment origin)
               :: inner ++
               [mkObs (with_parked (local_heap_ s) false)
                  (EvAllocateResult (Retry sp))]) ++ before), lh1, lh2.
      split; [|split].
      * rewrite Htr. apply app_assoc.
      * rewrite attempt_results_app, Ha. cbn [app first_success].
        exact Hnone.
      * exact Hclear.
Qed.

(** An address is returned only from an attempt that succeeded. *)
Lemma collection_loop_returned (n : nat) (s : State) (a : Address) :
  let r := collection_loop n object_size alignment origin s in
  outcome r = Returned a ->
  first_success (attempt_results (trace r)) = Some a.
Proof.
  revert s. induction n as [|n IH]; intros s r Hout; subst r.
  - discriminate Hout.
  - destruct (collection_loop_iteration n s)
      as (result & inner & s1 & Hlh & Hinner & Hrun).
    cbv zeta in Hrun.
    destruct (iteration_trace (local_heap_ s) _ inner result Hinner)
      as (Ha & Hc).
    rewrite Hrun in *. destruct result as [a'|sp].
    + cbn [outcome trace] in *. injection Hout as ->.
      rewrite attempt_results_app, Ha. reflexivity.
    + cbv zeta in Hout |- *. cbn [outcome] in Hout. cbn [trace].
      rewrite attempt_results_app, Ha. cbn [app first_success].
      apply IH. exact Hout.
Qed.

(** The loop keeps the parked protocol and ends with the thread not
    parked. *)
Lemma collection_loop_protocol (n : nat) (s : State) :
  let r := collection_loop n object_size alignment origin s in
  parked_protocol false (trace r) = Some false /\
  (is_parked (local_heap_ s) = false \/ n <> O ->
   is_parked (local_heap_ (after r)) = false).
Proof.
  revert s. induction n as [|n IH]; intros s r; subst r.
  - split; [reflexivity|]. cbn. intros [Hs|Hn]; [exact Hs|congruence].
  - destruct (collection_loop_iteration n s)
      as (result & inner & s1 & Hlh & Hinner & Hrun).
    cbv zeta in Hrun. rewrite Hrun.
    assert (Hin : parked_protocol false inner = Some false)
      by (apply (parked_protocol_inner
                   (with_parked (local_heap_ s) false) inner eq_refl
                   Hinner)).
    assert (Ht1 :
      parked_protocol false
        (wait_trace (local_heap_ s) ++
         mkObs (with_parked (local_heap_ s) false)
           (EvAllocate object_size alignment origin)
         :: inner ++
         [mkObs (with_parked (local_heap_ s) false)
            (EvAllocateResult result)]) = Some false).
    { cbn. rewrite parked_protocol_app, Hin. reflexivity. }
    destruct (IH s1) as (IHp & IHs).
    destruct result as [a|sp]; cbv zeta; cbn [trace after];
      rewrite parked_protocol_app, Ht1.
    + split; reflexivity.
    + split; [exact IHp|]. intros _. apply IHs. left.
      rewrite Hlh. reflexivity.
Qed.

(** Setting the flag and going on with [k]. *)
Lemma set_allocation_failed_then {A : Type} (k : M A) (s : State) :
  let r := (set_allocation_failed true ;; k) s in
  outcome r = outcome (k (flagged s)) /\
  after r = after (k (flagged s)) /\
  trace r = mkObs (local_heap_ (flagged s)) (EvAllocationFailed true)
            :: trace (k (flagged s)).
Proof.
  unfold bind.
  change (set_allocation_failed true s)
    with (mkRun (Returned tt) (flagged s)
            [mkObs (local_heap_ (flagged s)) (EvAllocationFailed true)]).
  cbn [outcome after trace].
  generalize (k (flagged s)). intros [[a|msg] s1 t1].
  - repeat split.
  - repeat split.
Qed.

(** [PerformCollectionAndAllocateAgain] sets the flag and runs three
    iterations. *)
Lemma PerformCollectionAndAllocateAgain_outcome (s : State) :
  outcome (PerformCollectionAndAllocateAgain object_size alignment origin s)
  = outcome (collection_loop 3 object_size alignment origin (flagged s)).
Proof.
  unfold PerformCollectionAndAllocateAgain.
  apply (set_allocation_failed_then
           (collection_loop 3 object_size alignment origin) s).
Qed.

Lemma PerformCollectionAndAllocateAgain_after (s : State) :
  after (PerformCollectionAndAllocateAgain object_size alignment origin s)
  = after (collection_loop 3 object_size alignment origin (flagged s)).
Proof.
  unfold PerformCollectionAndAllocateAgain.
  apply (set_allocation_failed_then
           (collection_loop 3 object_size alignment origin) s).
Qed.

Lemma PerformCollectionAndAllocateAgain_trace (s : State) :
  trace (PerformCollectionAndAllocateAgain object_size alignment origin s)
  = mkObs (local_heap_ (flagged s)) (EvAllocationFailed true)
    :: trace (collection_loop 3 object_size alignment origin (flagged s)).
Proof.
  unfold PerformCollectionAndAllocateAgain.
  apply (set_allocation_failed_then
           (collection_loop 3 object_size alignment origin) s).
Qed.
End Loop.

(** ** The retry-through-collection protocol *)

(** C1: when every [Allocate] attempt retried by
    [PerformCollectionAndAllocateAgain] returns [Retry], the collector is
    waited for exactly three times, exactly three attempts are made, and the
    call ends in the fatal out-of-memory failure: nothing is returned to the
    caller. *)
Theorem bounded_retry_then_fatal `{Collaborators} (object_size : Z)
    (alignment : AllocationAlignment) (origin : AllocationOrigin)
    (s : State) :
  let r := PerformCollectionAndAllocateAgain object_size alignment origin s in
  Forall (fun result => IsRetry result = true) (attempt_results (trace r)) ->
  count_waits (trace r) = 3%nat /\
  List.length (attempt_results (trace r)) = 3%nat /\
  outcome r = Fatal "ConcurrentAllocator: allocation failed".
Proof.
  intros r Hall. subst r.
  rewrite PerformCollectionAndAllocateAgain_trace in Hall |- *.
  rewrite PerformCollectionAndAllocateAgain_outcome.
  rewrite attempt_results_flag in Hall |- *. rewrite count_waits_flag.
  apply collection_loop_all_retry. exact Hall.
Qed.

(** Against the exhausted space every attempt asks for a retry. *)
Lemma bounded_retry_then_fatal_witness :
  let r := @PerformCollectionAndAllocateAgain exhausted_space 16 kWordAligned
             kRuntime exhausted_state in
  count_waits (trace r) = 3%nat /\
  List.length (attempt_results (trace r)) = 3%nat /\
  outcome r = Fatal "ConcurrentAllocator: allocation failed".
Proof.
  apply (@bounded_retry_then_fatal exhausted_space 16 kWordAligned kRuntime
           exhausted_state).
  vm_compute. repeat constructor.
Defined.

(** Whatever the attempts return, the collector is waited for at most three
    times. *)
Lemma at_most_three_waits `{Collaborators} (object_size : Z)
    (alignment : AllocationAlignment) (origin : AllocationOrigin)
    (s : State) :
  let r := PerformCollectionAndAllocateAgain object_size alignment origin s in
  (count_waits (trace r) <= 3)%nat.
Proof.
  intros r. subst r.
  rewrite PerformCollectionAndAllocateAgain_trace, count_waits_flag.
  apply collection_loop_bounded.
Qed.

(** C2: [PerformCollectionAndAllocateAgain] sets the allocation-failed flag
    first: the setting opens the trace, and every wait for a collection is
    observed with the flag set. The first attempt that does not return
    [Retry] ends the call: no attempt before it succeeded, the flag is
    cleared right after it, nothing follows, and its address is returned;
    and an address is returned in no other way. *)
Theorem flag_set_first_and_cleared_on_success `{Collaborators}
    (object_size : Z) (alignment : AllocationAlignment)
    (origin : AllocationOrigin) (s : State) :
  let r := PerformCollectionAndAllocateAgain object_size alignment origin s in
  (exists rest,
     trace r = mkObs (with_allocation_failed (local_heap_ s) true)
                 (EvAllocationFailed true) :: rest /\
     Forall (fun o => ev o = EvRequestAndWaitForCollection ->
                      allocation_failed_ (at_ o) = true) rest) /\
  (forall a,
     first_success (attempt_results (trace r)) = Some a ->
     outcome r = Returned a /\
     allocation_failed_ (local_heap_ (after r)) = false /\
     exists before at_result at_clear,
       trace r = before ++ [mkObs at_result (EvAllocateResult (Success a));
                            mkObs at_clear (EvAllocationFailed false)] /\
       first_success (attempt_results before) = None /\
       allocation_failed_ at_clear = false) /\
  (forall a,
     outcome r = Returned a ->
     first_success (attempt_results (trace r)) = Some a).
Proof.
  intros r. subst r.
  rewrite PerformCollectionAndAllocateAgain_trace,
    PerformCollectionAndAllocateAgain_outcome,
    PerformCollectionAndAllocateAgain_after, attempt_results_flag.
  split; [|split].
  - eexists. split; [reflexivity|].
    eapply Forall_impl;
      [|apply (collection_loop_flag_seen object_size alignment origin 3
                 (flagged s) eq_refl)].
    intros o [Hclear|Hflag] Hwait; [congruence|exact Hflag].
  - intros a Hfirst.
    destruct (collection_loop_success object_size alignment origin 3
                (flagged s) a Hfirst)
      as (Hout & Hflag & before & lh1 & lh2 & Htr & Hnone & Hclear).
    split; [exact Hout|]. split; [exact Hflag|].
    exists (mkObs (local_heap_ (flagged s)) (EvAllocationFailed true)
            :: before), lh1, lh2.
    split; [|split].
    + rewrite Htr. reflexivity.
    + rewrite attempt_results_flag. exact Hnone.
    + exact Hclear.
  - intros a Hout. apply collection_loop_returned. exact Hout.
Qed.

(** In the ample space the first retried attempt succeeds at the address
    the space grants. *)
Lemma flag_set_first_and_cleared_on_success_witness :
  let r := @PerformCollectionAndAllocateAgain ample_space 16 kWordAligned
             kRuntime (ample_state false InvalidBuffer 65536) in
  outcome r = Returned 65536 /\
  allocation_failed_ (local_heap_ (after r)) = false /\
  exists before at_result at_clear,
    trace r = before ++ [mkObs at_result (EvAllocateResult (Success 65536));
                         mkObs at_clear (EvAllocationFailed false)] /\
    first_success (attempt_results before) = None /\
    allocation_failed_ at_clear = false.
Proof.
  pose proof (@flag_set_first_and_cleared_on_success ample_space 16
                kWordAligned kRuntime (ample_state false InvalidBuffer 65536))
    as (_ & Hsuccess & _).
  apply (Hsuccess 65536). reflexivity.
Defined.

(** C9: in every iteration of the loop the thread is parked before the
    collector is asked, the collector is asked only while the thread is
    parked, and the thread is unparked before the [Allocate] attempt that
    follows: the whole trace keeps the parked protocol, and no event of an
    attempt is observed with the thread parked. The call ends with the
    thread not parked. The parked scope unparks the thread on every exit
    path of its body, whether the body returns or fails. *)
Theorem parked_exactly_while_waiting `{Collaborators} (object_size : Z)
    (alignment : AllocationAlignment) (origin : AllocationOrigin)
    (s : State) :
  let r := PerformCollectionAndAllocateAgain object_size alignment origin s in
  parked_protocol false (trace r) = Some false /\
  is_parked (local_heap_ (after r)) = false /\
  (forall (A : Type) (body : M A) (s0 : State),
     let scoped := ParkedScope body s0 in
     is_parked (local_heap_ (after scoped)) = false /\
     outcome scoped =
       outcome (body (mkState _ (with_parked (local_heap_ s0) true)
                        (lab_ s0) (heap s0)))).
Proof.
  intros r. subst r.
  rewrite PerformCollectionAndAllocateAgain_trace,
    PerformCollectionAndAllocateAgain_after, parked_protocol_flag.
  destruct (collection_loop_protocol object_size alignment origin 3
              (flagged s))
    as (Hprotocol & Hend).
  split; [exact Hprotocol|]. split.
  - apply Hend. right. discriminate.
  - intros A body s0 scoped. subst scoped. split; reflexivity.
Qed.

(** ** Concrete runs *)

(** Against the exhausted space the call waits three times, each time in
    its parked scope, retries three times, and fails fatally. *)
Example exhausted_run :
  let r := @PerformCollectionAndAllocateAgain exhausted_space 16 kWordAligned
             kRuntime exhausted_state in
  let request :=
    mkRequest (with_allocation_failed thread1 true) 4096 32768 kWordAligned
              kRuntime in
  let iteration :=
    [EvPark; EvRequestAndWaitForCollection; EvUnpark;
     EvAllocate 16 kWordAligned kRuntime;
     EvSlowGetLinearAllocationArea request None;
     EvAllocateResult (Retry OLD_SPACE)] in
  map ev (trace r)
  = EvAllocationFailed true :: iteration ++ iteration ++ iteration /\
  outcome r = Fatal "ConcurrentAllocator: allocation failed" /\
  local_heap_ (after r) = with_allocation_failed thread1 true.
Proof. repeat split. Qed.

(** In the ample space the collection ends black allocation, the first
    retried attempt replenishes the LAB and succeeds, and the flag is
    cleared. *)
Example ample_run :
  let r := @PerformCollectionAndAllocateAgain ample_space 16 kDoubleAligned
             kRuntime (ample_state true InvalidBuffer 65536) in
  map ev (trace r)
  = [EvAllocationFailed true;
     EvPark; EvRequestAndWaitForCollection; EvUnpark;
     EvAllocate 16 kDoubleAligned kRuntime;
     EvSlowGetLinearAllocationArea
       (mkRequest (with_allocation_failed thread1 true) 4096 32768
                  kWordAligned kRuntime) (Some (65536, 4096));
     EvInstallLab (mkLab 65536 69632); EvDCheck true; EvDCheck true;
     EvAllocateResult (Success 65536);
     EvAllocationFailed false] /\
  outcome r = Returned 65536 /\
  local_heap_ (after r) = thread1 /\
  lab_ (after r) = mkLab 65552 69632.
Proof. repeat split. Qed.

(** The parked protocol is broken by a wait outside a parked scope and by
    an attempt inside one. *)
Example wait_while_not_parked_is_rejected :
  parked_protocol false [mkObs thread1 EvRequestAndWaitForCollection] = None.
Proof. reflexivity. Qed.

Example attempt_while_parked_is_rejected :
  parked_protocol false
    [mkObs (with_parked thread1 true) EvPark;
     mkObs (with_parked thread1 true) (EvAllocate 16 kWordAligned kRuntime)]
  = None.
Proof. reflexivity. Qed.


(** * Further properties of the allocator *)

(** ** Replenishing the LAB *)

(** A slice of real memory makes a valid LAB. *)
Lemma slice_lab_valid (a : Address) (n : Z) :
  slice_in_address_space a n -> IsValid (mkLab a (address_add a n)) = true.
Proof.
  intros Hslice. rewrite (address_add_in_space a n Hslice).
  destruct Hslice as (Ha & Hn & Hlt). unfold IsValid, kNullAddress. cbn.
  apply andb_true_iff. split.
  - apply negb_true_iff, Z.eqb_neq. lia.
  - apply Z.leb_le. lia.
Qed.

(** The run of [AllocateInLabSlow] in terms of the run of [EnsureLab]. *)
Lemma AllocateInLabSlow_run `{Collaborators} (object_size : Z)
    (alignment : AllocationAlignment) (origin : AllocationOrigin)
    (s : State) :
  AllocateInLabSlow object_size alignment origin s =
  let r := EnsureLab origin s in
  match outcome r with
  | Returned true =>
      let s1 := after r in
      let fill := GetFillToAlign (top (lab_ s1)) alignment in
      let new_top := top (lab_ s1) + fill + object_size in
      if limit (lab_ s1) <? new_top
      then mkRun (Returned (Retry OLD_SPACE)) s1
             (trace r ++ [mkObs (local_heap_ s1) (EvDCheck false)])
      else mkRun (Returned (Success (top (lab_ s1) + fill)))
             (mkState _ (local_heap_ s1) (mkLab new_top (limit (lab_ s1)))
                (heap s1))
             (trace r ++ [mkObs (local_heap_ s1) (EvDCheck true)])
  | Returned false => mkRun (Returned (Retry OLD_SPACE)) (after r) (trace r)
  | Fatal msg => mkRun (Fatal msg) (after r) (trace r)
  end.
Proof.
  unfold AllocateInLabSlow, bind. cbv zeta.
  generalize (EnsureLab origin s). intros [[[|]|msg] s1 t1];
    cbn [outcome after trace negb].
  - unfold AllocateRawAligned, bind, get, DCHECK, emit, set_lab, ret.
    cbn [outcome after trace].
    destruct (limit (lab_ s1) <? _); cbn; reflexivity.
  - rewrite app_nil_r. reflexivity.
  - reflexivity.
Qed.

(** What [EnsureLab] leaves alone. *)
Lemma EnsureLab_allocation_frame `{Collaborators} (origin : AllocationOrigin)
    (s : State) :
  allocation_frame s (after (EnsureLab origin s)).
Proof.
  rewrite EnsureLab_run. cbv zeta.
  destruct (SlowGetLinearAllocationAreaBackground _ _ _ _ _ _)
    as [[[a n]|] space']; unfold allocation_frame; cbn.
  - split; [reflexivity|]. split; [reflexivity|]. split.
    + destruct (negb (a =? limit (lab_ s)) && IsValid (lab_ s));
        [eexists [_]|exists []]; reflexivity.
    + intros x Hx. destruct (black_allocation (heap s)); [|exact Hx].
      unfold CreateBlackArea. rewrite Hx. apply orb_true_r.
  - split; [reflexivity|]. split; [reflexivity|]. split.
    + exists []. reflexivity.
    + intros x Hx. exact Hx.
Qed.

(** The debug check of [EnsureLab] holds for a slice of real memory. *)
Lemma EnsureLab_checks `{Collaborators} (origin : AllocationOrigin)
    (s : State) :
  (forall a n space',
      SlowGetLinearAllocationAreaBackground (old_space (heap s))
        (local_heap_ s) kLabSize kMaxLabSize kWordAligned origin
      = (Some (a, n), space') ->
      slice_in_address_space a n) ->
  forall o b, In o (trace (EnsureLab origin s)) -> ev o = EvDCheck b ->
              b = true.
Proof.
  intros Hspace. rewrite EnsureLab_run. cbv zeta.
  destruct (SlowGetLinearAllocationAreaBackground _ _ _ _ _ _)
    as [[[a n]|] space'] eqn:Hget; cbn [trace]; intros o b Hin Hev.
  - pose proof (slice_lab_valid a n (Hspace a n space' eq_refl)) as Hnew.
    apply in_map_iff in Hin. destruct Hin as (e & <- & Hin).
    cbn [ev] in Hev. subst e.
    destruct Hin as [Hin|Hin]; [discriminate Hin|].
    apply in_app_or in Hin. destruct Hin as [Hin|Hin].
    + destruct (black_allocation (heap s)); cbn in Hin;
        [destruct Hin as [Hin|[]]; discriminate Hin|destruct Hin].
    + destruct Hin as [Hin|[Hin|Hin]]; [discriminate Hin| |].
      * injection Hin as <-. exact Hnew.
      * destruct (negb _ && _); cbn in Hin;
          [destruct Hin as [Hin|[]]; discriminate Hin|destruct Hin].
  - destruct Hin as [<-|[]]. discriminate Hev.
Qed.

(** X1: when the space grants no slice, [EnsureLab] returns false and
    changes nothing but the space: the thread, the LAB, the marking state,
    the filler objects and the black-allocation flag are as before, and the
    one thing it did is the slice request. *)
Theorem EnsureLab_refused_changes_nothing `{Collaborators} (s : State)
    (origin : AllocationOrigin) (space' : Space) :
  SlowGetLinearAllocationAreaBackground (old_space (heap s)) (local_heap_ s)
    kLabSize kMaxLabSize kWordAligned origin = (None, space') ->
  let r := EnsureLab origin s in
  outcome r = Returned false /\
  local_heap_ (after r) = local_heap_ s /\
  lab_ (after r) = lab_ s /\
  heap (after r) =
    mkHeap (black_allocation (heap s)) (marking_bitmap (heap s))
           (filler_objects (heap s)) space' /\
  map ev (trace r) =
    [EvSlowGetLinearAllocationArea
       (mkRequest (local_heap_ s) kLabSize kMaxLabSize kWordAligned origin)
       None].
Proof.
  intros Hget r. subst r. rewrite EnsureLab_run. cbv zeta. rewrite Hget.
  cbn. repeat split.
Qed.

(** Against the exhausted space a thread that holds a LAB keeps it. *)
Lemma EnsureLab_refused_changes_nothing_witness :
  let s := @mkState exhausted_space thread1 (mkLab 65000 65536)
             (mkHeap true unmarked [] tt) in
  let r := @EnsureLab exhausted_space kRuntime s in
  outcome r = Returned false /\
  local_heap_ (after r) = thread1 /\
  lab_ (after r) = mkLab 65000 65536 /\
  heap (after r) = mkHeap true unmarked [] tt /\
  map ev (trace r) =
    [EvSlowGetLinearAllocationArea
       (mkRequest thread1 4096 32768 kWordAligned kRuntime) None].
Proof.
  apply (@EnsureLab_refused_changes_nothing exhausted_space
           (@mkState exhausted_space thread1 (mkLab 65000 65536)
              (mkHeap true unmarked [] tt)) kRuntime tt).
  reflexivity.
Defined.

(** X2: whatever the space answers, [EnsureLab] returns true exactly when
    a slice was granted, leaves the space in the state the provider
    returned, never changes the thread's [LocalHeap] or the black-allocation
    flag, never unmarks an address, and adds at most one filler object, the
    one over the previous LAB's free range. *)
Theorem EnsureLab_frame `{Collaborators} (s : State)
    (origin : AllocationOrigin) :
  let r := EnsureLab origin s in
  let answer :=
    SlowGetLinearAllocationAreaBackground (old_space (heap s))
      (local_heap_ s) kLabSize kMaxLabSize kWordAligned origin in
  outcome r = Returned (match fst answer with
                        | Some _ => true
                        | None => false
                        end) /\
  old_space (heap (after r)) = snd answer /\
  allocation_frame s (after r) /\
  (filler_objects (heap (after r)) = filler_objects (heap s) \/
   filler_objects (heap (after r)) =
     (top (lab_ s), limit (lab_ s) - top (lab_ s))
     :: filler_objects (heap s)).
Proof.
  intros r answer. subst r answer.
  pose proof (EnsureLab_allocation_frame origin s) as Hframe.
  revert Hframe. rewrite EnsureLab_run. cbv zeta.
  destruct (SlowGetLinearAllocationAreaBackground _ _ _ _ _ _)
    as [[[a n]|] space']; cbn [fst snd outcome after heap old_space];
    intros Hframe.
  - split; [reflexivity|]. split; [reflexivity|]. split; [exact Hframe|].
    cbn. destruct (negb (a =? limit (lab_ s)) && IsValid (lab_ s));
      [right|left]; reflexivity.
  - split; [reflexivity|]. split; [reflexivity|]. split; [exact Hframe|].
    left. reflexivity.
Qed.

(** X3: while black allocation is active, [EnsureLab] keeps the LAB's free
    range black: if every address of the free range is marked before the
    call and the space grants a slice of real memory, every address of the
    free range of the LAB after the call is marked, whether the slice was
    merged with the previous LAB or replaced it. *)
Theorem EnsureLab_keeps_free_range_black `{Collaborators} (s : State)
    (origin : AllocationOrigin) (a : Address) (n : Z) (space' : Space) :
  SlowGetLinearAllocationAreaBackground (old_space (heap s)) (local_heap_ s)
    kLabSize kMaxLabSize kWordAligned origin = (Some (a, n), space') ->
  slice_in_address_space a n ->
  black_allocation (heap s) = true ->
  free_range_is true s ->
  free_range_is true (after (EnsureLab origin s)).
Proof.
  intros Hget Hslice Hblack Hfree.
  rewrite EnsureLab_run. cbv zeta. rewrite Hget, Hblack.
  rewrite (address_add_in_space a n Hslice).
  unfold free_range_is in *. cbn [after lab_ heap marking_bitmap].
  intros x Hx. unfold CreateBlackArea.
  destruct (in_range a (a + n) x) eqn:Hin; [reflexivity|].
  apply in_range_false in Hin. cbn [orb].
  destruct (a =? limit (lab_ s)) eqn:Hm; cbn [top limit] in Hx.
  - apply Z.eqb_eq in Hm. apply Hfree. lia.
  - lia.
Qed.

(** A black tail of 536 bytes merged with a granted slice gives a LAB that
    is black from its top to its limit. *)
Lemma EnsureLab_keeps_free_range_black_witness :
  let s := @mkState ample_space thread1 (mkLab 65000 65536)
             (mkHeap true (in_range 65000 65536) [] 65536) in
  free_range_is true (after (@EnsureLab ample_space kRuntime s)).
Proof.
  apply (@EnsureLab_keeps_free_range_black ample_space
           (@mkState ample_space thread1 (mkLab 65000 65536)
              (mkHeap true (in_range 65000 65536) [] 65536))
           kRuntime 65536 4096 (65536 + 4096)).
  - reflexivity.
  - unfold slice_in_address_space, kAddressSpace. lia.
  - reflexivity.
  - intros x Hx. cbn in Hx |- *. apply in_range_true. exact Hx.
Defined.

(** X4: when the space grants a slice of real memory to a well-formed LAB
    and the object with its alignment padding is no larger than the slice,
    [AllocateInLabSlow] succeeds: the object is placed at the top of the
    replenished LAB plus the padding, it lies inside that LAB, the LAB's top
    moves to the end of the object, and every debug check of the call holds,
    the one of line 108 included. *)
Theorem AllocateInLabSlow_object_fits `{Collaborators} (object_size : Z)
    (alignment : AllocationAlignment) (origin : AllocationOrigin)
    (s : State) (a : Address) (n : Z) (space' : Space) :
  SlowGetLinearAllocationAreaBackground (old_space (heap s)) (local_heap_ s)
    kLabSize kMaxLabSize kWordAligned origin = (Some (a, n), space') ->
  slice_in_address_space a n ->
  lab_well_formed (lab_ s) ->
  let lab1 := lab_ (after (EnsureLab origin s)) in
  let fill := GetFillToAlign (top lab1) alignment in
  0 <= fill ->
  fill + object_size <= n ->
  let r := AllocateInLabSlow object_size alignment origin s in
  let address := top lab1 + fill in
  outcome r = Returned (Success address) /\
  top lab1 <= address /\
  address + object_size <= limit lab1 /\
  lab_ (after r) = mkLab (address + object_size) (limit lab1) /\
  (forall o b, In o (trace r) -> ev o = EvDCheck b -> b = true).
Proof.
  intros Hget Hslice Hlab lab1 fill Hfill Hfit r address.
  assert (Hspace : forall a0 n0 space0,
             SlowGetLinearAllocationAreaBackground (old_space (heap s))
               (local_heap_ s) kLabSize kMaxLabSize kWordAligned origin
             = (Some (a0, n0), space0) ->
             slice_in_address_space a0 n0).
  { intros a0 n0 space0 Heq. rewrite Hget in Heq.
    injection Heq as <- <- <-. exact Hslice. }
  pose proof (EnsureLab_checks origin s Hspace) as Hchecks.
  assert (Hout : outcome (EnsureLab origin s) = Returned true).
  { rewrite EnsureLab_run. cbv zeta. rewrite Hget. reflexivity. }
  assert (Hroom : top lab1 <= a /\ limit lab1 = a + n).
  { subst lab1. rewrite EnsureLab_run. cbv zeta. rewrite Hget.
    rewrite (address_add_in_space a n Hslice). cbn [after lab_].
    destruct (a =? limit (lab_ s)) eqn:Hm; cbn [top limit].
    - apply Z.eqb_eq in Hm. split; [|reflexivity].
      destruct Hslice as (Ha & _).
      unfold lab_well_formed, kNullAddress in Hlab. lia.
    - split; [lia|reflexivity]. }
  destruct Hroom as (Htop & Hlim).
  subst r address. rewrite AllocateInLabSlow_run. cbv zeta. rewrite Hout.
  fold lab1. fold fill.
  assert (Hfits : (limit lab1 <? top lab1 + fill + object_size) = false)
    by (apply Z.ltb_ge; lia).
  rewrite Hfits. cbn [outcome after trace lab_].
  split; [reflexivity|]. split; [lia|]. split; [lia|].
  split; [reflexivity|].
  intros o b Hin Hev. apply in_app_or in Hin. destruct Hin as [Hin|Hin].
  - exact (Hchecks o b Hin Hev).
  - destruct Hin as [<-|[]]. cbn in Hev. injection Hev as <-. reflexivity.
Qed.

(** An object of 80 bytes after a merge with a tail of 536 bytes. *)
Lemma AllocateInLabSlow_object_fits_witness :
  let r := @AllocateInLabSlow ample_space 80 kWordAligned kRuntime
             (ample_state false (mkLab 65000 65536) 65536) in
  outcome r = Returned (Success 65000) /\
  65000 <= 65000 /\
  65000 + 80 <= 69632 /\
  lab_ (after r) = mkLab (65000 + 80) 69632 /\
  (forall o b, In o (trace r) -> ev o = EvDCheck b -> b = true).
Proof.
  apply (@AllocateInLabSlow_object_fits ample_space 80 kWordAligned kRuntime
           (ample_state false (mkLab 65000 65536) 65536)
           65536 4096 (65536 + 4096)).
  - reflexivity.
  - unfold slice_in_address_space, kAddressSpace. lia.
  - right. cbn. unfold kAddressSpace. lia.
  - cbn. lia.
  - cbn. lia.
Defined.

(** X5: when the object with its padding does not fit in the LAB that
    [EnsureLab] leaves, [AllocateInLabSlow] returns a retry although the
    space granted a slice: the replenished LAB stays installed with nothing
    allocated in it, and the debug check of line 108 is false. *)
Theorem AllocateInLabSlow_object_too_large `{Collaborators} (object_size : Z)
    (alignment : AllocationAlignment) (origin : AllocationOrigin)
    (s : State) (a : Address) (n : Z) (space' : Space) :
  SlowGetLinearAllocationAreaBackground (old_space (heap s)) (local_heap_ s)
    kLabSize kMaxLabSize kWordAligned origin = (Some (a, n), space') ->
  let after_ensure := after (EnsureLab origin s) in
  let lab1 := lab_ after_ensure in
  limit lab1 < top lab1 + GetFillToAlign (top lab1) alignment + object_size ->
  let r := AllocateInLabSlow object_size alignment origin s in
  (exists space, outcome r = Returned (Retry space)) /\
  after r = after_ensure /\
  In (EvDCheck false) (map ev (trace r)).
Proof.
  intros Hget after_ensure lab1 Hlarge r.
  assert (Hout : outcome (EnsureLab origin s) = Returned true).
  { rewrite EnsureLab_run. cbv zeta. rewrite Hget. reflexivity. }
  subst r. rewrite AllocateInLabSlow_run. cbv zeta. rewrite Hout.
  fold after_ensure. fold lab1.
  assert (Hc : (limit lab1
                <? top lab1 + GetFillToAlign (top lab1) alignment
                   + object_size) = true)
    by (apply Z.ltb_lt; exact Hlarge).
  rewrite Hc. cbn [outcome after trace].
  split; [eexists; reflexivity|]. split; [reflexivity|].
  rewrite map_app. apply in_or_app. right. left. reflexivity.
Qed.

(** A request of 8192 bytes against a slice of 4096 bytes. *)
Lemma AllocateInLabSlow_object_too_large_witness :
  let s := ample_state false InvalidBuffer 65536 in
  let r := @AllocateInLabSlow ample_space 8192 kWordAligned kRuntime s in
  (exists space, outcome r = Returned (Retry space)) /\
  after r = after (@EnsureLab ample_space kRuntime s) /\
  In (EvDCheck false) (map ev (trace r)).
Proof.
  apply (@AllocateInLabSlow_object_too_large ample_space 8192 kWordAligned
           kRuntime (ample_state false InvalidBuffer 65536)
           65536 4096 (65536 + 4096)).
  - reflexivity.
  - cbn. lia.
Defined.

(** X6: when the space grants no slice, [AllocateInLabSlow] returns
    [Retry(OLD_SPACE)] and changes nothing but the space: no bump allocation
    is tried, no debug check is evaluated, and the thread, the LAB, the
    marking state and the filler objects are as before. *)
Theorem AllocateInLabSlow_refused `{Collaborators} (object_size : Z)
    (alignment : AllocationAlignment) (origin : AllocationOrigin)
    (s : State) (space' : Space) :
  SlowGetLinearAllocationAreaBackground (old_space (heap s)) (local_heap_ s)
    kLabSize kMaxLabSize kWordAligned origin = (None, space') ->
  let r := AllocateInLabSlow object_size alignment origin s in
  outcome r = Returned (Retry OLD_SPACE) /\
  local_heap_ (after r) = local_heap_ s /\
  lab_ (after r) = lab_ s /\
  heap (after r) =
    mkHeap (black_allocation (heap s)) (marking_bitmap (heap s))
           (filler_objects (heap s)) space' /\
  map ev (trace r) =
    [EvSlowGetLinearAllocationArea
       (mkRequest (local_heap_ s) kLabSize kMaxLabSize kWordAligned origin)
       None].
Proof.
  intros Hget r. subst r. rewrite AllocateInLabSlow_run. cbv zeta.
  rewrite EnsureLab_run. cbv zeta. rewrite Hget. cbn. repeat split.
Qed.

(** A double-aligned request against the exhausted space. *)
Lemma AllocateInLabSlow_refused_witness :
  let s := @mkState exhausted_space thread1 (mkLab 65000 65016)
             (mkHeap true unmarked [] tt) in
  let r := @AllocateInLabSlow exhausted_space 80 kDoubleAligned kRuntime s in
  outcome r = Returned (Retry OLD_SPACE) /\
  local_heap_ (after r) = thread1 /\
  lab_ (after r) = mkLab 65000 65016 /\
  heap (after r) = mkHeap true unmarked [] tt /\
  map ev (trace r) =
    [EvSlowGetLinearAllocationArea
       (mkRequest thread1 4096 32768 kWordAligned kRuntime) None].
Proof.
  apply (@AllocateInLabSlow_refused exhausted_space 80 kDoubleAligned kRuntime
           (@mkState exhausted_space thread1 (mkLab 65000 65016)
              (mkHeap true unmarked [] tt)) tt).
  reflexivity.
Defined.

(** X7: whatever the space answers, [AllocateInLabSlow] returns a result
    and never fails fatally; it never changes the thread's [LocalHeap] or
    the black-allocation flag, never unmarks an address and never removes a
    filler object; the bump allocation leaves the LAB's limit where
    [EnsureLab] put it; and the space is left in the state the provider
    returned. *)
Theorem AllocateInLabSlow_frame `{Collaborators} (object_size : Z)
    (alignment : AllocationAlignment) (origin : AllocationOrigin)
    (s : State) :
  let r := AllocateInLabSlow object_size alignment origin s in
  (exists result, outcome r = Returned result) /\
  allocation_frame s (after r) /\
  limit (lab_ (after r)) = limit (lab_ (after (EnsureLab origin s))) /\
  old_space (heap (after r)) =
    snd (SlowGetLinearAllocationAreaBackground (old_space (heap s))
           (local_heap_ s) kLabSize kMaxLabSize kWordAligned origin).
Proof.
  intros r. subst r. rewrite AllocateInLabSlow_run. cbv zeta.
  pose proof (EnsureLab_allocation_frame origin s) as Hframe.
  assert (Hspace :
    old_space (heap (after (EnsureLab origin s))) =
    snd (SlowGetLinearAllocationAreaBackground (old_space (heap s))
           (local_heap_ s) kLabSize kMaxLabSize kWordAligned origin)).
  { rewrite EnsureLab_run. cbv zeta.
    destruct (SlowGetLinearAllocationAreaBackground _ _ _ _ _ _)
      as [[[a n]|] space']; reflexivity. }
  assert (Hnofatal : exists b, outcome (EnsureLab origin s) = Returned b).
  { rewrite EnsureLab_run. cbv zeta.
    destruct (SlowGetLinearAllocationAreaBackground _ _ _ _ _ _)
      as [[[a n]|] space']; eexists; reflexivity. }
  destruct Hnofatal as (b & Hb). rewrite Hb. destruct b.
  - destruct (limit (lab_ (after (EnsureLab origin s))) <? _);
      cbn [outcome after lab_ heap limit];
      (split; [eexists; reflexivity|]);
      (split; [exact Hframe|]); split; [reflexivity|exact Hspace| reflexivity|exact Hspace].
  - cbn [outcome after]. split; [eexists; reflexivity|].
    split; [exact Hframe|]. split; [reflexivity|exact Hspace].
Qed.

(** ** Allocation outside the LAB, and the toggles *)

(** X8: [AllocateOutsideLab] never touches the LAB: whatever the space
    answers, the LAB and the filler objects are exactly as before, the
    thread's [LocalHeap] and the black-allocation flag are unchanged, no
    address is unmarked, the space is left in the state the provider
    returned, and the result is the address of the granted slice or
    [Retry(OLD_SPACE)], whatever size the space reports for the slice. *)
Theorem AllocateOutsideLab_frame `{Collaborators} (object_size : Z)
    (alignment : AllocationAlignment) (origin : AllocationOrigin)
    (s : State) :
  let r := AllocateOutsideLab object_size alignment origin s in
  let answer :=
    SlowGetLinearAllocationAreaBackground (old_space (heap s))
      (local_heap_ s) object_size object_size alignment origin in
  outcome r = Returned (match fst answer with
                        | Some (a, _) => Success a
                        | None => Retry OLD_SPACE
                        end) /\
  lab_ (after r) = lab_ s /\
  filler_objects (heap (after r)) = filler_objects (heap s) /\
  old_space (heap (after r)) = snd answer /\
  allocation_frame s (after r).
Proof.
  intros r answer. subst r answer. rewrite AllocateOutsideLab_run. cbv zeta.
  destruct (SlowGetLinearAllocationAreaBackground _ _ _ _ _ _)
    as [[[a n]|] space']; cbn [fst snd outcome after lab_ heap
                               filler_objects old_space];
    do 4 (split; [reflexivity|]); unfold allocation_frame;
    cbn [after local_heap_ heap black_allocation filler_objects
         marking_bitmap];
    (split; [reflexivity|]); (split; [reflexivity|]);
    (split; [exists []; reflexivity|]); intros x Hx.
  - destruct (black_allocation (heap s)); [|exact Hx].
    unfold MarkRangeBlack. rewrite Hx. apply orb_true_r.
  - exact Hx.
Qed.

(** X9: on a well-formed LAB, [MarkLinearAllocationAreaBlack] leaves every
    address of the free range [[top, limit)] marked and
    [UnmarkLinearAllocationArea] leaves every one unmarked, whatever the
    marking state was; neither changes the LAB or the marking state of an
    address outside the free range. *)
Theorem toggles_colour_the_free_range `{Collaborators} (s : State) :
  lab_well_formed (lab_ s) ->
  let marked := after (MarkLinearAllocationAreaBlack s) in
  let cleared := after (UnmarkLinearAllocationArea s) in
  free_range_is true marked /\
  free_range_is false cleared /\
  lab_ marked = lab_ s /\ lab_ cleared = lab_ s /\
  (forall x, ~ (top (lab_ s) <= x < limit (lab_ s)) ->
     marking_bitmap (heap marked) x = marking_bitmap (heap s) x /\
     marking_bitmap (heap cleared) x = marking_bitmap (heap s) x).
Proof.
  intros Hlab marked cleared. subst marked cleared.
  unfold MarkLinearAllocationAreaBlack, UnmarkLinearAllocationArea,
    free_range_is, bind, get. cbn.
  destruct (negb (top (lab_ s) =? kNullAddress)
            && negb (top (lab_ s) =? limit (lab_ s))) eqn:Hc; cbn.
  - split; [|split; [|split; [reflexivity|split; [reflexivity|]]]].
    + intros x Hx. unfold CreateBlackArea.
      apply in_range_true in Hx. rewrite Hx. reflexivity.
    + intros x Hx. unfold DestroyBlackArea.
      apply in_range_true in Hx. rewrite Hx. reflexivity.
    + intros x Hx. unfold CreateBlackArea, DestroyBlackArea.
      apply in_range_false in Hx. rewrite Hx. split; reflexivity.
  - assert (Hempty : forall x, ~ (top (lab_ s) <= x < limit (lab_ s))).
    { intros x Hx. apply andb_false_iff in Hc.
      unfold lab_well_formed, kNullAddress in *.
      destruct Hc as [Hc|Hc]; apply negb_false_iff, Z.eqb_eq in Hc; lia. }
    split; [|split; [|split; [reflexivity|split; [reflexivity|]]]].
    + intros x Hx. destruct (Hempty x Hx).
    + intros x Hx. destruct (Hempty x Hx).
    + intros x _. split; reflexivity.
Qed.

(** The toggles on a LAB of 4096 bytes. *)
Lemma toggles_colour_the_free_range_witness :
  let s := ample_state true (mkLab 65536 69632) 69632 in
  free_range_is true (after (MarkLinearAllocationAreaBlack s)) /\
  free_range_is false (after (UnmarkLinearAllocationArea s)) /\
  lab_ (after (MarkLinearAllocationAreaBlack s)) = mkLab 65536 69632 /\
  lab_ (after (UnmarkLinearAllocationArea s)) = mkLab 65536 69632 /\
  (forall x, ~ (65536 <= x < 69632) ->
     marking_bitmap (heap (after (MarkLinearAllocationAreaBlack s))) x
     = unmarked x /\
     marking_bitmap (heap (after (UnmarkLinearAllocationArea s))) x
     = unmarked x).
Proof.
  apply (@toggles_colour_the_free_range ample_space
           (ample_state true (mkLab 65536 69632) 69632)).
  right. cbn. unfold kAddressSpace. lia.
Defined.

(** ** More on the retry loop *)

Section LoopMore.
Context `{Collaborators}.
Variables (object_size : Z) (alignment : AllocationAlignment)
          (origin : AllocationOrigin).

Lemma collection_loop_fatal (n : nat) (s : State) (msg : string) :
  let r := collection_loop n object_size alignment origin s in
  outcome r = Fatal msg ->
  Forall (fun result => IsRetry result = true) (attempt_results (trace r)) /\
  allocation_failed_ (local_heap_ (after r))
  = allocation_failed_ (local_heap_ s).
Proof.
  revert s. induction n as [|n IH]; intros s r Hout; subst r.
  - split; [constructor|reflexivity].
  - destruct (collection_loop_iteration object_size alignment origin n s)
      as (result & inner & s1 & Hlh & Hinner & Hrun).
    cbv zeta in Hrun.
    destruct (iteration_trace object_size alignment origin
                (local_heap_ s) _ inner result Hinner) as (Ha & _).
    rewrite Hrun in Hout |- *. destruct result as [a|sp].
    + discriminate Hout.
    + cbv zeta in Hout |- *. cbn [outcome] in Hout. cbn [trace after].
      destruct (IH s1 Hout) as (IHr & IHf).
      rewrite attempt_results_app, Ha. split.
      * constructor; [reflexivity|exact IHr].
      * rewrite IHf, Hlh. reflexivity.
Qed.

Lemma collection_loop_waits_attempts (n : nat) (s : State) :
  let r := collection_loop n object_size alignment origin s in
  count_waits (trace r) = List.length (attempt_results (trace r)) /\
  (n <> O -> (1 <= count_waits (trace r))%nat) /\
  attempts_ask_for object_size alignment origin (trace r).
Proof.
  revert s. induction n as [|n IH]; intros s r; subst r.
  - split; [reflexivity|]. split; [congruence|constructor].
  - destruct (collection_loop_iteration object_size alignment origin n s)
      as (result & inner & s1 & Hlh & Hinner & Hrun).
    cbv zeta in Hrun.
    destruct (iteration_trace object_size alignment origin
                (local_heap_ s) _ inner result Hinner) as (Ha & Hc).
    assert (Ht1 :
      attempts_ask_for object_size alignment origin
        (wait_trace (local_heap_ s) ++
         mkObs (with_parked (local_heap_ s) false)
           (EvAllocate object_size alignment origin)
         :: inner ++
         [mkObs (with_parked (local_heap_ s) false)
            (EvAllocateResult result)])).
    { unfold attempts_ask_for. apply Forall_app. split.
      - unfold wait_trace.
        repeat (apply Forall_cons; [intros ? ? ? Hev; discriminate Hev|]).
        apply Forall_nil.
      - apply Forall_cons.
        + intros ? ? ? Hev. cbn in Hev. injection Hev as <- <- <-.
          repeat split.
        + apply Forall_app. split.
          * eapply Forall_impl; [|exact Hinner].
            intros o (_ & Ho) ? ? ? Hev. rewrite Hev in Ho. discriminate Ho.
          * apply Forall_cons; [intros ? ? ? Hev; discriminate Hev|].
            apply Forall_nil. }
    rewrite Hrun. destruct result as [a|sp]; cbv zeta; cbn [trace].
    + rewrite count_waits_app, attempt_results_app, Ha, Hc.
      split; [reflexivity|]. split; [lia|].
      unfold attempts_ask_for. apply Forall_app. split; [exact Ht1|].
      apply Forall_cons; [intros ? ? ? Hev; discriminate Hev|].
      apply Forall_nil.
    + destruct (IH s1) as (IHc & _ & IHa).
      rewrite count_waits_app, attempt_results_app, Ha, Hc, length_app, IHc.
      split; [reflexivity|]. split; [lia|].
      unfold attempts_ask_for. apply Forall_app. split; [exact Ht1|exact IHa].
Qed.
End LoopMore.

(** X10: [PerformCollectionAndAllocateAgain] fails fatally only after three
    attempts that all asked for a retry and three waits for a collection;
    the message is the one of line 71, and the call ends with the
    allocation-failed flag still set and the thread not parked. *)
Theorem fatal_only_after_three_retries `{Collaborators} (object_size : Z)
    (alignment : AllocationAlignment) (origin : AllocationOrigin)
    (s : State) (msg : string) :
  let r := PerformCollectionAndAllocateAgain object_size alignment origin s in
  outcome r = Fatal msg ->
  msg = "ConcurrentAllocator: allocation failed"%string /\
  exists sp1 sp2 sp3,
    attempt_results (trace r) = [Retry sp1; Retry sp2; Retry sp3] /\
    count_waits (trace r) = 3%nat /\
    allocation_failed_ (local_heap_ (after r)) = true /\
    is_parked (local_heap_ (after r)) = false.
Proof.
  intros r Hout. subst r.
  rewrite PerformCollectionAndAllocateAgain_outcome in Hout.
  rewrite PerformCollectionAndAllocateAgain_trace,
    PerformCollectionAndAllocateAgain_after, attempt_results_flag,
    count_waits_flag.
  destruct (collection_loop_fatal object_size alignment origin 3 (flagged s)
              msg Hout) as (Hretry & Hflag).
  destruct (collection_loop_all_retry object_size alignment origin 3
              (flagged s) Hretry) as (Hwaits & Hlen & Hmsg).
  destruct (collection_loop_protocol object_size alignment origin 3
              (flagged s)) as (_ & Hend).
  split; [congruence|].
  destruct (attempt_results
              (trace (collection_loop 3 object_size alignment origin
                        (flagged s)))) as [|r1 [|r2 [|r3 [|r4 rest]]]];
    try discriminate Hlen.
  inversion Hretry as [|? ? H1 Hr1]; subst.
  inversion Hr1 as [|? ? H2 Hr2]; subst.
  inversion Hr2 as [|? ? H3 Hr3]; subst.
  destruct r1 as [|sp1]; [discriminate H1|].
  destruct r2 as [|sp2]; [discriminate H2|].
  destruct r3 as [|sp3]; [discriminate H3|].
  exists sp1, sp2, sp3. split; [reflexivity|]. split; [exact Hwaits|].
  split; [rewrite Hflag; reflexivity|].
  apply Hend. right. discriminate.
Qed.

(** The fatal failure of a large request against the exhausted space. *)
Lemma fatal_only_after_three_retries_witness :
  let r := @PerformCollectionAndAllocateAgain exhausted_space 8192
             kWordAligned kGC exhausted_state in
  "ConcurrentAllocator: allocation failed"%string
  = "ConcurrentAllocator: allocation failed"%string /\
  exists sp1 sp2 sp3,
    attempt_results (trace r) = [Retry sp1; Retry sp2; Retry sp3] /\
    count_waits (trace r) = 3%nat /\
    allocation_failed_ (local_heap_ (after r)) = true /\
    is_parked (local_heap_ (after r)) = false.
Proof.
  apply (@fatal_only_after_three_retries exhausted_space 8192 kWordAligned
           kGC exhausted_state).
  reflexivity.
Defined.

(** Replaying the order of waits and attempts over two traces in a row,
    over inner events and over a write of the flag. *)
Lemma collected_before_attempts_app (collected : bool) (t1 t2 : Trace) :
  collected_before_attempts collected (t1 ++ t2) =
  match collected_before_attempts collected t1 with
  | Some collected' => collected_before_attempts collected' t2
  | None => None
  end.
Proof.
  revert collected. induction t1 as [|o t1 IH]; intros collected;
    [reflexivity|].
  cbn. destruct (ev o); try apply IH.
  destruct collected; [apply IH|reflexivity].
Qed.

Lemma collected_before_attempts_inner (lh : LocalHeap) (collected : bool)
    (inner : Trace) :
  Forall (fun o => at_ o = lh /\ inner_event (ev o) = true) inner ->
  collected_before_attempts collected inner = Some collected.
Proof.
  induction 1 as [|o t (_ & Ho) _ IH]; [reflexivity|].
  cbn. destruct (ev o); try discriminate Ho; exact IH.
Qed.

Lemma collected_before_attempts_flag (collected : bool) (lh : LocalHeap)
    (flag : bool) (t : Trace) :
  collected_before_attempts collected (mkObs lh (EvAllocationFailed flag) :: t)
  = collected_before_attempts collected t.
Proof. reflexivity. Qed.

(** Every iteration of the loop waits before it attempts. *)
Section LoopOrder.
Context `{Collaborators}.
Variables (object_size : Z) (alignment : AllocationAlignment)
          (origin : AllocationOrigin).

Lemma collection_loop_collects_first (n : nat) (s : State) :
  collected_before_attempts false
    (trace (collection_loop n object_size alignment origin s)) = Some false.
Proof.
  revert s. induction n as [|n IH]; intros s.
  - reflexivity.
  - destruct (collection_loop_iteration object_size alignment origin n s)
      as (result & inner & s1 & Hlh & Hinner & Hrun).
    cbv zeta in Hrun. rewrite Hrun.
    pose proof (collected_before_attempts_inner
                  (with_parked (local_heap_ s) false) false inner Hinner)
      as Hin.
    assert (Ht1 :
      collected_before_attempts false
        (wait_trace (local_heap_ s) ++
         mkObs (with_parked (local_heap_ s) false)
           (EvAllocate object_size alignment origin)
         :: inner ++
         [mkObs (with_parked (local_heap_ s) false)
            (EvAllocateResult result)]) = Some false).
    { cbn. rewrite collected_before_attempts_app, Hin. reflexivity. }
    destruct result as [a|sp]; cbv zeta; cbn [trace];
      rewrite collected_before_attempts_app, Ht1; [reflexivity|apply IH].
Qed.
End LoopOrder.

(** X11: in every call of [PerformCollectionAndAllocateAgain] each attempt
    begins only after a collection has been waited for since the attempt
    before it, so a collection is waited for before the first attempt;
    there are as many waits as attempts, at least one and at most three;
    and every attempt asks for the size, alignment and origin the call was
    given. *)
Theorem one_wait_before_each_attempt `{Collaborators} (object_size : Z)
    (alignment : AllocationAlignment) (origin : AllocationOrigin)
    (s : State) :
  let r := PerformCollectionAndAllocateAgain object_size alignment origin s in
  collected_before_attempts false (trace r) = Some false /\
  count_waits (trace r) = List.length (attempt_results (trace r)) /\
  (1 <= count_waits (trace r) <= 3)%nat /\
  Forall (fun o => forall size' alignment' origin',
                     ev o = EvAllocate size' alignment' origin' ->
                     size' = object_size /\ alignment' = alignment /\
                     origin' = origin) (trace r).
Proof.
  intros r. subst r.
  rewrite PerformCollectionAndAllocateAgain_trace, attempt_results_flag,
    count_waits_flag, collected_before_attempts_flag.
  destruct (collection_loop_waits_attempts object_size alignment origin 3
              (flagged s)) as (Hsame & Hone & Hargs).
  destruct (collection_loop_bounded object_size alignment origin 3
              (flagged s)) as (Hmost & _).
  split; [apply collection_loop_collects_first|].
  split; [exact Hsame|]. split.
  - split; [apply Hone; discriminate|exact Hmost].
  - apply Forall_cons; [intros ? ? ? Hev; discriminate Hev|exact Hargs].
Qed.

(** ** Releasing the LAB *)

(** X13: once a well-formed LAB has been released by
    [FreeLinearAllocationArea], the allocator holds the empty buffer, and
    both black-allocation toggles do nothing. *)
Theorem toggles_do_nothing_after_release `{Collaborators} (s : State) :
  lab_well_formed (lab_ s) ->
  let released := after (FreeLinearAllocationArea s) in
  lab_ released = InvalidBuffer /\
  MarkLinearAllocationAreaBlack released = mkRun (Returned tt) released [] /\
  UnmarkLinearAllocationArea released = mkRun (Returned tt) released [].
Proof.
  intros Hlab released.
  assert (Hempty : lab_ released = InvalidBuffer).
  { subst released.
    unfold FreeLinearAllocationArea, CloseAndMakeIterable, MakeIterable,
      bind, get. cbn.
    destruct (IsValid (lab_ s)) eqn:Hvalid; cbn; [reflexivity|].
    unfold IsValid in Hvalid. unfold lab_well_formed, kNullAddress in *.
    destruct Hlab as [(Ht & Hl)|(Ht & Hle & _)].
    - destruct (lab_ s) as [t l]. cbn in *. subst. reflexivity.
    - apply andb_false_iff in Hvalid.
      destruct Hvalid as [Hv|Hv].
      + apply negb_false_iff, Z.eqb_eq in Hv. lia.
      + apply Z.leb_gt in Hv. lia. }
  clearbody released. split; [exact Hempty|].
  unfold MarkLinearAllocationAreaBlack, UnmarkLinearAllocationArea, bind, get.
  cbn. rewrite Hempty. cbn. destruct released. split; reflexivity.
Qed.

(** Releasing a LAB of 536 bytes. *)
Lemma toggles_do_nothing_after_release_witness :
  let released :=
    after (FreeLinearAllocationArea
             (ample_state true (mkLab 65000 65536) 65536)) in
  lab_ released = InvalidBuffer /\
  MarkLinearAllocationAreaBlack released = mkRun (Returned tt) released [] /\
  UnmarkLinearAllocationArea released = mkRun (Returned tt) released [].
Proof.
  apply (@toggles_do_nothing_after_release ample_space
           (ample_state true (mkLab 65000 65536) 65536)).
  right. cbn. unfold kAddressSpace. lia.
Defined.

(** ** The stress task *)

(** The calls of the task, each in front of what follows it. *)
Lemma allocate_then `{TaskCollaborators} {B : Type} (object_size : Z)
    (alignment : AllocationAlignment) (origin : AllocationOrigin)
    (k : Address -> T B) (s : State) :
  bindT (allocator_AllocateOrFail object_size alignment origin) k s =
  let r := AllocateOrFail object_size alignment origin s in
  match outcome r with
  | Returned a =>
      let rk := k a (after r) in
      mkTaskRun (task_outcome rk) (task_after rk)
        (StepAllocateOrFail object_size alignment origin a :: task_steps rk)
  | Fatal msg => mkTaskRun (Fatal msg) (after r) []
  end.
Proof.
  unfold bindT, allocator_AllocateOrFail, bindT, liftT, stepT, retT.
  cbv zeta.
  destruct (AllocateOrFail object_size alignment origin s)
    as [[a|msg] s1 t1]; cbn [outcome after task_outcome task_after
                             task_steps app]; [|reflexivity].
  destruct (k a s1) as [o2 s2 t2]. reflexivity.
Qed.

Lemma fill_then `{Collaborators} {B : Type} (address : Address) (size : Z)
    (k : unit -> T B) (s : State) :
  bindT (heap_CreateFillerObjectAtBackground address size) k s =
  let rk := k tt (after (CreateFillerObjectAtBackground address size s)) in
  mkTaskRun (task_outcome rk) (task_after rk)
    (StepCreateFillerObject address size :: task_steps rk).
Proof.
  unfold bindT, heap_CreateFillerObjectAtBackground, bindT, liftT, stepT.
  cbv zeta.
  change (outcome (CreateFillerObjectAtBackground address size s))
    with (@Returned unit tt).
  cbn [task_outcome task_after task_steps app].
  destruct (k tt _) as [o2 s2 t2]. reflexivity.
Qed.

Lemma safepoint_then `{TaskCollaborators} {B : Type} (k : unit -> T B)
    (s : State) :
  bindT local_heap_Safepoint k s =
  let r := Safepoint s in
  match outcome r with
  | Returned _ =>
      let rk := k tt (after r) in
      mkTaskRun (task_outcome rk) (task_after rk)
        (StepSafepoint :: task_steps rk)
  | Fatal msg => mkTaskRun (Fatal msg) (after r) []
  end.
Proof.
  unfold bindT, local_heap_Safepoint, bindT, liftT, stepT. cbv zeta.
  destruct (Safepoint s) as [[[]|msg] s1 t1];
    cbn [outcome after task_outcome task_after task_steps app];
    [|reflexivity].
  destruct (k tt s1) as [o2 s2 t2]. reflexivity.
Qed.

Lemma ret_then `{Collaborators} {A B : Type} (a : A) (k : A -> T B)
    (s : State) :
  bindT (retT a) k s = k a s.
Proof.
  unfold bindT, retT. cbn [task_outcome task_after task_steps app].
  destruct (k a s) as [o2 s2 t2]. reflexivity.
Qed.

(** One iteration of the loop of [RunInternal]. *)
Lemma stress_loop_step `{TaskCollaborators} (count : nat) (i : Z) (s : State) :
  stress_loop (S count) i s =
  let r1 := AllocateOrFail kObjectSize kWordAligned kRuntime s in
  match outcome r1 with
  | Fatal msg => mkTaskRun (Fatal msg) (after r1) []
  | Returned a1 =>
      let s1 := after (CreateFillerObjectAtBackground a1 kObjectSize
                         (after r1)) in
      let r2 := AllocateOrFail kLargeObjectSize kWordAligned kRuntime s1 in
      let steps1 :=
        [StepAllocateOrFail kObjectSize kWordAligned kRuntime a1;
         StepCreateFillerObject a1 kObjectSize] in
      match outcome r2 with
      | Fatal msg => mkTaskRun (Fatal msg) (after r2) steps1
      | Returned a2 =>
          let s2 := after (CreateFillerObjectAtBackground a2 kLargeObjectSize
                             (after r2)) in
          let steps2 :=
            steps1 ++
            [StepAllocateOrFail kLargeObjectSize kWordAligned kRuntime a2;
             StepCreateFillerObject a2 kLargeObjectSize] in
          if Z.rem i 10 =? 0
          then
            let r3 := Safepoint s2 in
            match outcome r3 with
            | Fatal msg => mkTaskRun (Fatal msg) (after r3) steps2
            | Returned _ =>
                let r4 := stress_loop count (i + 1) (after r3) in
                mkTaskRun (task_outcome r4) (task_after r4)
                  (steps2 ++ StepSafepoint :: task_steps r4)
            end
          else
            let r4 := stress_loop count (i + 1) s2 in
            mkTaskRun (task_outcome r4) (task_after r4)
              (steps2 ++ task_steps r4)
      end
  end.
Proof.
  cbn [stress_loop]. rewrite allocate_then. cbv zeta.
  destruct (AllocateOrFail kObjectSize kWordAligned kRuntime s)
    as [[a1|msg] s1 t1]; cbn [outcome after]; [|reflexivity].
  rewrite fill_then. cbv zeta. rewrite allocate_then. cbv zeta.
  destruct (AllocateOrFail kLargeObjectSize kWordAligned kRuntime _)
    as [[a2|msg] s2 t2]; cbn [outcome after task_outcome task_after
                               task_steps app]; [|reflexivity].
  rewrite fill_then. cbv zeta.
  destruct (Z.rem i 10 =? 0).
  - rewrite safepoint_then. cbv zeta.
    destruct (Safepoint _) as [[[]|msg] s3 t3];
      cbn [outcome after task_outcome task_after task_steps app];
      reflexivity.
  - rewrite ret_then. cbn [task_outcome task_after task_steps app].
    reflexivity.
Qed.

(** Reading the steps of two runs in a row. *)
Lemma allocated_sizes_app (l1 l2 : list TaskStep) :
  allocated_sizes (l1 ++ l2) = allocated_sizes l1 ++ allocated_sizes l2.
Proof. apply flat_map_app. Qed.

Lemma count_safepoints_app (l1 l2 : list TaskStep) :
  count_safepoints (l1 ++ l2) = (count_safepoints l1 + count_safepoints l2)%nat.
Proof. unfold count_safepoints. rewrite filter_app. apply length_app. Qed.

Lemma count_posted_app (l1 l2 : list TaskStep) :
  count_posted (l1 ++ l2) = (count_posted l1 + count_posted l2)%nat.
Proof. unfold count_posted. rewrite filter_app. apply length_app. Qed.

(** An allocation with its filler in front of a list of steps. *)
Lemma fillers_follow_pair (size : Z) (address : Address)
    (rest : list TaskStep) :
  fillers_follow
    (StepAllocateOrFail size kWordAligned kRuntime address
     :: StepCreateFillerObject address size :: rest)
  = fillers_follow rest.
Proof. cbn. rewrite !Z.eqb_refl. reflexivity. Qed.

(** Steps in which every allocation has its filler can be followed by
    more steps. *)
Lemma fillers_follow_app (l1 l2 : list TaskStep) :
  fillers_follow l1 = true ->
  fillers_follow (l1 ++ l2) = fillers_follow l2.
Proof.
  revert l1. fix IH 1. intros [|step steps] Hpairs; [reflexivity|].
  destruct step as [size [] [] address| | |]; cbn in Hpairs |- *;
    try discriminate Hpairs; try (apply IH; exact Hpairs).
  destruct steps as [|[| address' size' | |] steps];
    try discriminate Hpairs.
  cbn in Hpairs |- *.
  destruct ((address' =? address) && (size' =? size));
    [|discriminate Hpairs].
  cbn in Hpairs |- *. apply IH. exact Hpairs.
Qed.

Section StressLoop.
Context `{TaskCollaborators}.

(** In every run of the loop each allocation has its filler and nothing is
    posted; there are at most two allocations for each iteration and no
    more safepoints than are due. *)
(** One iteration of the loop of [RunInternal]. *)
Lemma stress_loop_steps (count : nat) (i : Z) (s : State) :
  let steps := task_steps (stress_loop count i s) in
  fillers_follow steps = true /\
  count_posted steps = 0%nat /\
  (List.length (allocated_sizes steps) <= 2 * count)%nat /\
  (count_safepoints steps <= safepoints_due count i)%nat.
Proof.
  revert i s. induction count as [|count IH]; intros i s steps; subst steps.
  - cbn. repeat split; constructor.
  - rewrite stress_loop_step. cbv zeta. cbn [safepoints_due].
    destruct (AllocateOrFail kObjectSize kWordAligned kRuntime s)
      as [[a1|msg] s1 t1]; cbn [outcome after task_steps];
      [|cbn; repeat split; lia].
    destruct (AllocateOrFail kLargeObjectSize kWordAligned kRuntime _)
      as [[a2|msg] s2 t2]; cbn [outcome after task_steps].
    2:{ split; [apply fillers_follow_pair|]. cbn. repeat split; lia. }
    destruct (Z.rem i 10 =? 0).
    + destruct (Safepoint _) as [[[]|msg] s3 t3];
        cbn [outcome after task_steps].
      * destruct (IH (i + 1) s3) as (IHf & IHp & IHa & IHs).
        cbn [app]. rewrite !fillers_follow_pair.
        split; [exact IHf|].
        change (?a :: ?b :: ?c :: ?d :: StepSafepoint :: ?l)
          with ([a; b; c; d; StepSafepoint] ++ l).
        rewrite count_posted_app, allocated_sizes_app, count_safepoints_app,
          length_app.
        rewrite IHp. cbn [count_posted allocated_sizes count_safepoints
                          filter flat_map app List.length].
        repeat split; lia.
      * cbn [app]. rewrite !fillers_follow_pair. cbn. repeat split; lia.
    + destruct (IH (i + 1)
                  (after (CreateFillerObjectAtBackground a2 kLargeObjectSize
                            s2))) as (IHf & IHp & IHa & IHs).
      cbn [task_steps app]. rewrite !fillers_follow_pair.
      split; [exact IHf|].
      change (?a :: ?b :: ?c :: ?d :: ?l) with ([a; b; c; d] ++ l).
      rewrite count_posted_app, allocated_sizes_app, count_safepoints_app,
        length_app.
      rewrite IHp. cbn [count_posted allocated_sizes count_safepoints
                        filter flat_map app List.length].
      repeat split; lia.
Qed.

(** A loop that runs to its end makes both allocations of every iteration
    and reaches every safepoint that is due. *)
Lemma stress_loop_complete (count : nat) (i : Z) (s : State) :
  let r := stress_loop count i s in
  task_outcome r = Returned tt ->
  allocated_sizes (task_steps r)
  = List.concat (repeat [kObjectSize; kLargeObjectSize] count) /\
  count_safepoints (task_steps r) = safepoints_due count i.
Proof.
  revert i s. induction count as [|count IH]; intros i s r Hout; subst r.
  - split; reflexivity.
  - rewrite stress_loop_step in Hout |- *. cbv zeta in Hout |- *.
    cbn [safepoints_due repeat List.concat].
    destruct (AllocateOrFail kObjectSize kWordAligned kRuntime s)
      as [[a1|msg] s1 t1]; cbn [outcome after task_outcome task_steps]
                             in Hout |- *;
      [|discriminate Hout].
    destruct (AllocateOrFail kLargeObjectSize kWordAligned kRuntime _)
      as [[a2|msg] s2 t2]; cbn [outcome after task_outcome task_steps]
                             in Hout |- *;
      [|discriminate Hout].
    destruct (Z.rem i 10 =? 0).
    + destruct (Safepoint _) as [[[]|msg] s3 t3];
        cbn [outcome after task_outcome task_steps] in Hout |- *;
        [|discriminate Hout].
      destruct (IH (i + 1) s3 Hout) as (IHa & IHs).
      cbn [app].
      change (?a :: ?b :: ?c :: ?d :: StepSafepoint :: ?l)
        with ([a; b; c; d; StepSafepoint] ++ l).
      rewrite allocated_sizes_app, count_safepoints_app, IHa, IHs.
      split; reflexivity.
    + cbn [task_outcome task_steps] in Hout |- *.
      destruct (IH (i + 1) _ Hout) as (IHa & IHs).
      cbn [app].
      change (?a :: ?b :: ?c :: ?d :: ?l) with ([a; b; c; d] ++ l).
      rewrite allocated_sizes_app, count_safepoints_app, IHa, IHs.
      split; reflexivity.
Qed.

(** Going on to [Schedule] after [m]. *)
Lemma then_Schedule (m : T unit) (s : State) :
  let r := m s in
  let run := bindT m (fun _ => Schedule) s in
  match task_outcome r with
  | Returned _ =>
      if FLAG_local_heaps && FLAG_concurrent_allocation
      then task_outcome run = Returned tt /\
           task_steps run = task_steps r ++ [StepCallDelayedOnWorkerThread]
      else (exists msg, task_outcome run = Fatal msg) /\
           task_steps run = task_steps r
  | Fatal msg =>
      task_outcome run = Fatal msg /\ task_steps run = task_steps r
  end.
Proof.
  unfold bindT, Schedule, CHECK, stepT, bindT. cbv zeta.
  destruct (m s) as [[[]|msg] s1 t1];
    cbn [task_outcome task_after task_steps].
  - destruct (FLAG_local_heaps && FLAG_concurrent_allocation);
      cbn [task_outcome task_after task_steps app].
    + split; reflexivity.
    + split; [eexists; reflexivity|apply app_nil_r].
  - split; reflexivity.
Qed.
End StressLoop.

(** [RunInternal] is the loop followed by [Schedule]. *)
Lemma RunInternal_unfold `{TaskCollaborators} (s : State) :
  RunInternal s
  = bindT (stress_loop kNumIterations 0) (fun _ => Schedule) s.
Proof. reflexivity. Qed.

(** A safepoint is due in 200 of the iterations 0 to 1999. *)
Lemma safepoints_due_run : safepoints_due kNumIterations 0 = 200%nat.
Proof. vm_compute. reflexivity. Qed.

(** X14: in every run of the stress task, whether it ends or fails on the
    way, every allocation is word-aligned with the runtime as origin and is
    followed at once by a filler object over the returned address, of the
    size asked for; there are at most two allocations for each of the
    [kNumIterations] iterations and at most 200 safepoints; and the task is
    posted again at most once, exactly when the run returns. *)
Theorem stress_task_steps `{TaskCollaborators} (s : State) :
  let r := RunInternal s in
  fillers_follow (task_steps r) = true /\
  (List.length (allocated_sizes (task_steps r)) <= 2 * kNumIterations)%nat /\
  (count_safepoints (task_steps r) <= 200)%nat /\
  (count_posted (task_steps r) <= 1)%nat /\
  (count_posted (task_steps r) = 1%nat <-> task_outcome r = Returned tt).
Proof.
  intros r. subst r. rewrite RunInternal_unfold.
  pose proof (then_Schedule (stress_loop kNumIterations 0) s) as Hthen.
  cbv zeta in Hthen.
  destruct (stress_loop_steps kNumIterations 0 s)
    as (Hpairs & Hposted & Hallocs & Hsafe).
  rewrite safepoints_due_run in Hsafe.
  set (run := bindT (stress_loop kNumIterations 0) (fun _ => Schedule) s)
    in *.
  set (loop := stress_loop kNumIterations 0 s) in *.
  clearbody run loop.
  assert (Hsteps :
    (task_steps run = task_steps loop /\
     exists msg, task_outcome run = Fatal msg) \/
    (task_steps run = task_steps loop ++ [StepCallDelayedOnWorkerThread] /\
     task_outcome run = Returned tt)).
  { destruct (task_outcome loop) as [[]|msg].
    - destruct (FLAG_local_heaps && FLAG_concurrent_allocation).
      + right. destruct Hthen as (Ho & Hs). split; assumption.
      + left. destruct Hthen as (Ho & Hs). split; assumption.
    - left. destruct Hthen as (Ho & Hs). split; [exact Hs|].
      exists msg. exact Ho. }
  destruct Hsteps as [(Hs & msg & Ho)|(Hs & Ho)]; rewrite Hs, Ho.
  - rewrite Hposted. repeat split; try assumption; try lia; discriminate.
  - rewrite allocated_sizes_app, count_safepoints_app, count_posted_app,
      length_app, Hposted.
    cbn [allocated_sizes count_safepoints count_posted flat_map filter
         List.length app].
    split; [rewrite (fillers_follow_app _ _ Hpairs); reflexivity|].
    repeat split; try lia; reflexivity.
Qed.

(** The large objects are 8192 bytes. *)
Lemma kLargeObjectSize_bytes : kLargeObjectSize = 8192.
Proof. reflexivity. Qed.

(** X15: a run of the stress task that returns has found both flags set,
    ends with the task posted again, once, and before that has made
    [kNumIterations] pairs of allocations, of [10 * kTaggedSize] and of 8192
    bytes in turn, and reached 200 safepoints. *)
Theorem stress_task_completes `{TaskCollaborators} (s : State) :
  let r := RunInternal s in
  task_outcome r = Returned tt ->
  FLAG_local_heaps = true /\ FLAG_concurrent_allocation = true /\
  exists body,
    task_steps r = body ++ [StepCallDelayedOnWorkerThread] /\
    count_posted body = 0%nat /\
    allocated_sizes body
    = List.concat (repeat [10 * kTaggedSize; 8192] kNumIterations) /\
    count_safepoints body = 200%nat.
Proof.
  intros r Hout. subst r. rewrite RunInternal_unfold in Hout |- *.
  pose proof (then_Schedule (stress_loop kNumIterations 0) s) as Hthen.
  cbv zeta in Hthen.
  destruct (stress_loop_steps kNumIterations 0 s) as (_ & Hposted & _).
  pose proof (stress_loop_complete kNumIterations 0 s) as Hcomplete.
  cbv zeta in Hcomplete. rewrite safepoints_due_run in Hcomplete.
  set (run := bindT (stress_loop kNumIterations 0) (fun _ => Schedule) s)
    in *.
  set (loop := stress_loop kNumIterations 0 s) in *.
  clearbody run loop.
  destruct (task_outcome loop) as [[]|msg].
  - destruct (FLAG_local_heaps && FLAG_concurrent_allocation) eqn:Hflags.
    + apply andb_true_iff in Hflags. destruct Hflags as (Hf1 & Hf2).
      split; [exact Hf1|]. split; [exact Hf2|].
      destruct Hthen as (_ & Hs). destruct (Hcomplete eq_refl) as (Ha & Hc).
      unfold kObjectSize in Ha. rewrite kLargeObjectSize_bytes in Ha.
      exists (task_steps loop).
      split; [exact Hs|]. split; [exact Hposted|].
      split; [exact Ha|exact Hc].
    + destruct Hthen as ((msg & Ho) & _). congruence.
  - destruct Hthen as (Ho & _). congruence.
Qed.

(** A run of the task in the ample space. *)
Lemma stress_task_completes_witness :
  let r := @RunInternal ample_space ample_task
             (ample_state false InvalidBuffer 65536) in
  true = true /\ true = true /\
  exists body,
    task_steps r = body ++ [StepCallDelayedOnWorkerThread] /\
    count_posted body = 0%nat /\
    allocated_sizes body
    = List.concat (repeat [10 * 8; 8192] kNumIterations) /\
    count_safepoints body = 200%nat.
Proof.
  apply (@stress_task_completes ample_space ample_task
           (ample_state false InvalidBuffer 65536)).
  vm_compute. reflexivity.
Defined.

(** ** Broken orders of waits and attempts *)

(** An attempt before any wait, and a second attempt without a wait of its
    own, are rejected. *)
Example attempt_before_any_wait_is_rejected :
  collected_before_attempts false
    [mkObs thread1 (EvAllocate 16 kWordAligned kRuntime);
     mkObs thread1 (EvAllocateResult (Retry OLD_SPACE));
     mkObs (with_parked thread1 true) EvRequestAndWaitForCollection]
  = None.
Proof. reflexivity. Qed.

Example second_attempt_without_wait_is_rejected :
  collected_before_attempts false
    [mkObs (with_parked thread1 true) EvRequestAndWaitForCollection;
     mkObs thread1 (EvAllocate 16 kWordAligned kRuntime);
     mkObs thread1 (EvAllocateResult (Retry OLD_SPACE));
     mkObs thread1 (EvAllocate 16 kWordAligned kRuntime)]
  = None.
Proof. reflexivity. Qed.
